(** * Rokai trading platform: the portfolio ledger of [trading_execution.py]

    A shallow embedding of [Position] and [Portfolio] and the properties
    of the ledger: cash conservation, exit triggers, trailing stops and
    portfolio valuation.

    Conventions of the embedding.
    - Python [float] prices, quantities and cash are exact rationals [Q];
      rounding, infinities and NaN are outside the model.  Float division
      raises [ZeroDivisionError] on a zero divisor, as in Python.
    - A [datetime] is an opaque integer time stamp.
    - [Position] instances are mutable objects that the portfolio holds by
      reference: the object store [heap] maps a reference to the current
      fields of the object, the dict [positions] and the list
      [closed_positions] hold references.
    - A Python [dict] is an association list in insertion order with
      unique keys.
    - Calls to the two loggers do not touch the ledger and are left out;
      the [metadata] dict of a position is never read and is left out. *)

From Stdlib Require Import QArith Qfield Lqa ZArith List String Bool Lia.
Import ListNotations.

Open Scope Q_scope.

(** ** Python primitives *)

Module Py.

Definition timestamp := Z.

Inductive exn : Type :=
| ZeroDivisionError.

(** [x < y] on floats. *)
Definition ltb (x y : Q) : bool := negb (Qle_bool y x).

(** [x / y] on floats: raises on a zero divisor. *)
Definition truediv (x y : Q) : option Q :=
  if Qeq_bool y 0 then None else Some (x / y).

Section Dict.
Context {V : Type}.

Definition dict := list (string * V).

Fixpoint get (k : string) (d : dict) : option V :=
  match d with
  | [] => None
  | (k', v) :: d' => if String.eqb k k' then Some v else get k d'
  end.

(** [k in d] *)
Definition mem (k : string) (d : dict) : bool :=
  match get k d with Some _ => true | None => false end.

(** [d[k] = v]: an existing key keeps its place, a new key goes last. *)
Fixpoint set (k : string) (v : V) (d : dict) : dict :=
  match d with
  | [] => [(k, v)]
  | (k', v') :: d' =>
      if String.eqb k k' then (k', v) :: d' else (k', v') :: set k v d'
  end.

(** [del d[k]] *)
Definition del (k : string) (d : dict) : dict :=
  filter (fun kv => negb (String.eqb k (fst kv))) d.

Definition keys (d : dict) : list string := map fst d.

Definition values (d : dict) : list V := map snd d.
End Dict.

Arguments dict V : clear implicits.

End Py.

(** ** Position *)

Record Position : Type := mkPosition {
  ticker : string;
  quantity : Q;
  entry_price : Q;
  entry_time : Py.timestamp;
  stop_loss : option Q;
  take_profit : option Q;
  exit_price : option Q;
  exit_time : option Py.timestamp;
  pnl : Q;
  pnl_percentage : Q;
  status : string
}.

Module PositionM.

(** [Position.__init__] *)
Definition init (ticker : string) (quantity entry_price : Q)
    (entry_time : Py.timestamp) (stop_loss take_profit : option Q) : Position :=
  {| ticker := ticker; quantity := quantity; entry_price := entry_price;
     entry_time := entry_time; stop_loss := stop_loss;
     take_profit := take_profit; exit_price := None; exit_time := None;
     pnl := 0; pnl_percentage := 0; status := "open" |}.

(** [Position.update_stop_loss] *)
Definition update_stop_loss (self : Position) (price : Q) : Position :=
  {| ticker := ticker self; quantity := quantity self;
     entry_price := entry_price self; entry_time := entry_time self;
     stop_loss := Some price;
     take_profit := take_profit self; exit_price := exit_price self;
     exit_time := exit_time self; pnl := pnl self;
     pnl_percentage := pnl_percentage self; status := status self |}.

(** [Position.update_take_profit] *)
Definition update_take_profit (self : Position) (price : Q) : Position :=
  {| ticker := ticker self; quantity := quantity self;
     entry_price := entry_price self; entry_time := entry_time self;
     stop_loss := stop_loss self;
     take_profit := Some price; exit_price := exit_price self;
     exit_time := exit_time self; pnl := pnl self;
     pnl_percentage := pnl_percentage self; status := status self |}.

(** The object after a method body ran to its end, or after it raised. *)
Inductive result : Type :=
| Done (self : Position)
| Fail (e : Py.exn) (self : Position).

(** The sign factor [(1 if quantity > 0 else -1)]. *)
Definition side_sign (q : Q) : Q := if Py.ltb 0 q then 1 else -1.

(** [Position.close].  The first three assignments are done before the
    division is evaluated, so they persist when it raises. *)
Definition close (self : Position) (exit_price : Q)
    (exit_time : Py.timestamp) : result :=
  let pnl' := (exit_price - entry_price self) * quantity self in
  let self1 :=
    {| ticker := ticker self; quantity := quantity self;
       entry_price := entry_price self; entry_time := entry_time self;
       stop_loss := stop_loss self; take_profit := take_profit self;
       exit_price := Some exit_price; exit_time := Some exit_time;
       pnl := pnl'; pnl_percentage := pnl_percentage self;
       status := status self |} in
  match Py.truediv exit_price (entry_price self) with
  | None => Fail Py.ZeroDivisionError self1
  | Some ratio =>
      Done {| ticker := ticker self; quantity := quantity self;
              entry_price := entry_price self; entry_time := entry_time self;
              stop_loss := stop_loss self; take_profit := take_profit self;
              exit_price := Some exit_price; exit_time := Some exit_time;
              pnl := pnl';
              pnl_percentage := (ratio - 1) * 100 * side_sign (quantity self);
              status := "closed" |}
  end.

End PositionM.

(** ** Portfolio *)

(** An entry of [Portfolio.transactions]; the keys [pnl] and
    [pnl_percentage] exist in "close" entries only. *)
Record Transaction : Type := mkTransaction {
  tx_type : string;
  tx_ticker : string;
  tx_quantity : Q;
  tx_price : Q;
  tx_timestamp : Py.timestamp;
  tx_value : Q;
  tx_pnl : option Q;
  tx_pnl_percentage : option Q
}.

(** An entry of [Portfolio.equity_curve]. *)
Record EquitySample : Type := mkEquitySample {
  es_timestamp : Py.timestamp;
  es_portfolio_value : Q;
  es_cash : Q
}.

Definition ref := nat.

Record Portfolio : Type := mkPortfolio {
  initial_capital : Q;
  cash : Q;
  positions : Py.dict ref;
  closed_positions : list ref;
  equity_curve : list EquitySample;
  transactions : list Transaction
}.

(** The object store and the portfolio that refers into it. *)
Record World : Type := mkWorld {
  heap : ref -> Position;
  self : Portfolio
}.

(** The [EXIT_RULES["stop_loss"]] entries that [update_position] reads.
    [config.py] as available does not define [EXIT_RULES], so the two
    entries are parameters. *)
Record ExitRules : Type := mkExitRules {
  trailing : bool;
  percentage : Q
}.

(** A call returned, or raised with the world as it was at that moment. *)
Inductive outcome : Type :=
| Returned (w : World)
| Raised (e : Py.exn) (w : World).

Definition world_of (o : outcome) : World :=
  match o with
  | Returned w => w
  | Raised _ w => w
  end.

Definition store (h : ref -> Position) (r : ref) (p : Position)
  : ref -> Position :=
  fun r' => if Nat.eqb r' r then p else h r'.

Module PortfolioM.

(** [Portfolio.__init__] *)
Definition init (initial_capital : Q) : Portfolio :=
  {| initial_capital := initial_capital; cash := initial_capital;
     positions := []; closed_positions := []; equity_curve := [];
     transactions := [] |}.

(** [Portfolio.add_position] *)
Definition add_position (w : World) (position : ref) : World :=
  let p := heap w position in
  let s := self w in
  {| heap := heap w;
     self :=
       {| initial_capital := initial_capital s;
          cash := cash s - quantity p * entry_price p;
          positions := Py.set (ticker p) position (positions s);
          closed_positions := closed_positions s;
          equity_curve := equity_curve s;
          transactions :=
            transactions s ++
            [ {| tx_type := "open"; tx_ticker := ticker p;
                 tx_quantity := quantity p; tx_price := entry_price p;
                 tx_timestamp := entry_time p;
                 tx_value := quantity p * entry_price p;
                 tx_pnl := None; tx_pnl_percentage := None |} ] |} |}.

(** [Portfolio.close_position] *)
Definition close_position (w : World) (tkr : string) (exit_price : Q)
    (exit_time : Py.timestamp) : outcome :=
  let s := self w in
  match Py.get tkr (positions s) with
  | None => Returned w
  | Some r =>
      match PositionM.close (heap w r) exit_price exit_time with
      | PositionM.Fail e p' =>
          Raised e {| heap := store (heap w) r p'; self := s |}
      | PositionM.Done p' =>
          Returned
            {| heap := store (heap w) r p';
               self :=
                 {| initial_capital := initial_capital s;
                    cash := cash s + quantity p' * exit_price;
                    positions := Py.del tkr (positions s);
                    closed_positions := closed_positions s ++ [r];
                    equity_curve := equity_curve s;
                    transactions :=
                      transactions s ++
                      [ {| tx_type := "close";
                           tx_ticker := ticker p';
                           tx_quantity := quantity p';
                           tx_price := exit_price;
                           tx_timestamp := exit_time;
                           tx_value := quantity p' * exit_price;
                           tx_pnl := Some (pnl p');
                           tx_pnl_percentage := Some (pnl_percentage p')
                        |} ] |} |}
      end
  end.


(** The test of the "Check stop loss" block. *)
Definition stop_loss_triggered (position : Position) (current_price : Q)
  : bool :=
  match stop_loss position with
  | None => false
  | Some stop =>
      (Py.ltb 0 (quantity position) && Qle_bool current_price stop)
      || (Py.ltb (quantity position) 0 && Qle_bool stop current_price)
  end.

(** The test of the "Check take profit" block. *)
Definition take_profit_triggered (position : Position) (current_price : Q)
  : bool :=
  match take_profit position with
  | None => false
  | Some target =>
      (Py.ltb 0 (quantity position) && Qle_bool target current_price)
      || (Py.ltb (quantity position) 0 && Qle_bool current_price target)
  end.

Section ExitRules.
Variable EXIT_RULES : ExitRules.

(** The "Update trailing stop if enabled" block for the object [r]. *)
Definition trailing_stop (w : World) (r : ref) (current_price : Q) : World :=
  let position := heap w r in
  if trailing EXIT_RULES then
    match stop_loss position with
    | Some stop =>
        if Py.ltb 0 (quantity position) then
          let new_stop := current_price * (1 - percentage EXIT_RULES) in
          if Py.ltb stop new_stop
          then {| heap := store (heap w) r
                            (PositionM.update_stop_loss position new_stop);
                  self := self w |}
          else w
        else
          let new_stop := current_price * (1 + percentage EXIT_RULES) in
          if Py.ltb new_stop stop
          then {| heap := store (heap w) r
                            (PositionM.update_stop_loss position new_stop);
                  self := self w |}
          else w
    | None => w
    end
  else w.

(** [Portfolio.update_position].  The unrealized percentage is computed
    before any check, so a zero entry price raises at once. *)
Definition update_position (w : World) (tkr : string) (current_price : Q)
    (current_time : Py.timestamp) : outcome :=
  match Py.get tkr (positions (self w)) with
  | None => Returned w
  | Some r =>
      let position := heap w r in
      match Py.truediv current_price (entry_price position) with
      | None => Raised Py.ZeroDivisionError w
      | Some _ =>
          if stop_loss_triggered position current_price
          then close_position w tkr current_price current_time
          else if take_profit_triggered position current_price
          then close_position w tkr current_price current_time
          else Returned (trailing_stop w r current_price)
      end
  end.

(** The first loop of [update_portfolio], over [list(self.positions.keys())]. *)
Fixpoint update_each (tickers : list string) (current_prices : Py.dict Q)
    (current_time : Py.timestamp) (w : World) : outcome :=
  match tickers with
  | [] => Returned w
  | tkr :: rest =>
      match Py.get tkr current_prices with
      | None => update_each rest current_prices current_time w
      | Some price =>
          match update_position w tkr price current_time with
          | Returned w' => update_each rest current_prices current_time w'
          | Raised e w' => Raised e w'
          end
      end
  end.
End ExitRules.

(** The valuation loop shared by [update_portfolio], [get_portfolio_value]
    and [get_position_value]: [acc += position.quantity * current_prices[ticker]]
    for the tickers in the snapshot. *)
Definition accumulate (h : ref -> Position) (current_prices : Py.dict Q)
    (items : Py.dict ref) (acc : Q) : Q :=
  fold_left
    (fun acc item =>
       match Py.get (fst item) current_prices with
       | Some price => acc + quantity (h (snd item)) * price
       | None => acc
       end)
    items acc.

(** [Portfolio.get_portfolio_value] *)
Definition get_portfolio_value (w : World) (current_prices : Py.dict Q) : Q :=
  accumulate (heap w) current_prices (positions (self w)) (cash (self w)).

(** [Portfolio.get_position_value] *)
Definition get_position_value (w : World) (current_prices : Py.dict Q) : Q :=
  accumulate (heap w) current_prices (positions (self w)) 0.

(** [Portfolio.update_portfolio] *)
Definition update_portfolio (EXIT_RULES : ExitRules) (w : World)
    (current_prices : Py.dict Q) (current_time : Py.timestamp) : outcome :=
  match update_each EXIT_RULES (Py.keys (positions (self w)))
          current_prices current_time w with
  | Raised e w' => Raised e w'
  | Returned w' =>
      let s := self w' in
      let portfolio_value :=
        accumulate (heap w') current_prices (positions s) (cash s) in
      Returned
        {| heap := heap w';
           self :=
             {| initial_capital := initial_capital s;
                cash := cash s;
                positions := positions s;
                closed_positions := closed_positions s;
                equity_curve :=
                  equity_curve s ++
                  [ {| es_timestamp := current_time;
                       es_portfolio_value := portfolio_value;
                       es_cash := cash s |} ];
                transactions := transactions s |} |}
  end.

End PortfolioM.

(** ** Objects and sequences of calls *)

(** [p'] has the terms of [p]: the fields that no method of the ledger
    assigns once the object is constructed. *)
Definition same_terms (p p' : Position) : Prop :=
  ticker p' = ticker p /\ quantity p' = quantity p /\
  entry_price p' = entry_price p /\ entry_time p' = entry_time p /\
  take_profit p' = take_profit p.

(** One [update_position] call: ticker, price, time. *)
Definition update_call : Type := string * Q * Py.timestamp.

(** A sequence of [update_position] calls; a call that raises leaves the
    world as it was at the raise and the caller goes on. *)
Fixpoint update_many (R : ExitRules) (calls : list update_call) (w : World)
  : World :=
  match calls with
  | [] => w
  | (tkr, p, t) :: rest =>
      update_many R rest (world_of (PortfolioM.update_position R w tkr p t))
  end.

(** Calls for one ticker at the given prices. *)
Definition calls_for (tkr : string) (ticks : list (Q * Py.timestamp))
  : list update_call :=
  map (fun pt => (tkr, fst pt, snd pt)) ticks.

(** Each price is at most the one before it, starting from [p]. *)
Fixpoint falling (p : Q) (ticks : list (Q * Py.timestamp)) : Prop :=
  match ticks with
  | [] => True
  | (p', _) :: rest => p' <= p /\ falling p' rest
  end.

(** [a] is no tighter than [b] for a long position. *)
Definition stop_le (a b : option Q) : Prop :=
  match a, b with
  | Some x, Some y => x <= y
  | None, None => True
  | _, _ => False
  end.

(** The stop of the long position [r] held under [tkr] already covers the
    trailing candidate of the price [p]. *)
Definition covered (R : ExitRules) (tkr : string) (r : ref) (p : Q)
    (w : World) : Prop :=
  Py.get tkr (positions (self w)) = Some r ->
  ~ entry_price (heap w r) == 0 ->
  forall s, stop_loss (heap w r) = Some s -> p * (1 - percentage R) <= s.

(** ** Valuation and conservation *)

Definition Qsum (l : list Q) : Q := fold_right Qplus 0 l.

(** The open positions whose ticker is in the snapshot. *)
Definition priced (current_prices : Py.dict Q) (items : Py.dict ref)
  : Py.dict ref :=
  filter (fun item => Py.mem (fst item) current_prices) items.

(** The sum of [quantity * price] over the priced open positions. *)
Definition snapshot_value (h : ref -> Position) (current_prices : Py.dict Q)
    (items : Py.dict ref) : Q :=
  Qsum (map (fun item =>
               match Py.get (fst item) current_prices with
               | Some price => quantity (h (snd item)) * price
               | None => 0
               end)
            (priced current_prices items)).







Definition cost (h : ref -> Position) (item : string * ref) : Q :=
  entry_price (h (snd item)) * quantity (h (snd item)).

(** The sum of [entry_price * quantity] over the open positions. *)
Definition open_cost (w : World) : Q :=
  Qsum (map (cost (heap w)) (positions (self w))).



(** ** Position sizing *)

(** Modelled from the spec: the class [RiskManager] and its method
    [calculate_position_size] are called by [main.py] and the tests but
    defined in a part of [trading_execution.py] that is not available.
    Its state is the configured maximum risk fraction, the confidence
    floor and the current portfolio equity. *)
Record RiskManager : Type := mkRiskManager {
  max_risk_percent : Q;
  confidence_floor : Q;
  portfolio_equity : Q
}.

(** Modelled from the spec: [calculate_position_size] returns 0 when the
    price is not positive, when the confidence is outside 0..100 or when
    it is at or below the floor; otherwise the risk budget
    [max_risk_percent * portfolio_equity], scaled by the confidence, is
    turned into a quantity at the current price. *)
Definition calculate_position_size (rm : RiskManager) (tkr : string)
    (signal_direction : Z) (confidence current_price : Q) : Q :=
  if Qle_bool current_price 0 then 0
  else if Py.ltb confidence 0 || Py.ltb 100 confidence then 0
  else if Qle_bool confidence (confidence_floor rm) then 0
  else max_risk_percent rm * portfolio_equity rm * (confidence / 100)
       / current_price.

(** ** The whole mutating interface *)

(** The dict comprehension of [get_position_exposure]: every open ticker
    at the entry price of its position. *)
Definition entry_prices (w : World) : Py.dict Q :=
  map (fun item => (fst item, entry_price (heap w (snd item))))
      (positions (self w)).

(** A call of one of the four mutating methods of [Portfolio]. *)
Inductive portfolio_call : Type :=
| CallAdd (position : ref)
| CallClose (tkr : string) (exit_price : Q) (exit_time : Py.timestamp)
| CallUpdate (tkr : string) (current_price : Q) (current_time : Py.timestamp)
| CallUpdatePortfolio (current_prices : Py.dict Q)
    (current_time : Py.timestamp).

(** The world after the call, as it is at the raise when the call
    raises. *)
Definition exec_call (R : ExitRules) (w : World) (c : portfolio_call)
  : World :=
  match c with
  | CallAdd position => PortfolioM.add_position w position
  | CallClose tkr e t => world_of (PortfolioM.close_position w tkr e t)
  | CallUpdate tkr p t => world_of (PortfolioM.update_position R w tkr p t)
  | CallUpdatePortfolio prices t =>
      world_of (PortfolioM.update_portfolio R w prices t)
  end.

Fixpoint run_calls (R : ExitRules) (w : World) (calls : list portfolio_call)
  : World :=
  match calls with
  | [] => w
  | c :: rest => run_calls R (exec_call R w c) rest
  end.





(** The cash movement a transaction records: the value leaves on an
    "open" and comes back on a "close". *)
Definition signed_value (tx : Transaction) : Q :=
  if String.eqb (tx_type tx) "open" then - tx_value tx else tx_value tx.

Definition logged_cash_flow (w : World) : Q :=
  Qsum (map signed_value (transactions (self w))).

(** The cash is the capital plus the logged cash movements. *)
Definition cash_logged (w : World) : Prop :=
  cash (self w) == initial_capital (self w) + logged_cash_flow w.



(** [l'] extends [l] at its end. *)
Definition extends {A : Type} (l l' : list A) : Prop :=
  exists tail, l' = l ++ tail.

(** The three logs of [w'] extend those of [w]. *)
Definition logs_extend (w w' : World) : Prop :=
  extends (transactions (self w)) (transactions (self w')) /\
  extends (closed_positions (self w)) (closed_positions (self w')) /\
  extends (equity_curve (self w)) (equity_curve (self w')).

(** The books of [w'] are those of [w]: the same ledger, and objects that
    differ at most in their stop. *)
Definition same_books (w w' : World) : Prop :=
  self w' = self w /\
  forall r, same_terms (heap w r) (heap w' r) /\
            pnl (heap w' r) = pnl (heap w r) /\
            status (heap w' r) = status (heap w r).

(** Every open position is filed once, under the ticker of its object,
    and every closed position has the status "closed". *)
Record filed (w : World) : Prop := {
  filed_keys : NoDup (Py.keys (positions (self w)));
  filed_ticker :
    forall k r, In (k, r) (positions (self w)) -> ticker (heap w r) = k;
  filed_closed :
    forall r, In r (closed_positions (self w)) ->
              status (heap w r) = "closed"%string
}.

(** Nothing that was open in [w0] is missing from the books of [w]. *)
Definition all_kept (w0 w : World) : Prop :=
  NoDup (Py.keys (positions (self w))) /\
  (forall k r, In (k, r) (positions (self w0)) ->
               In (k, r) (positions (self w)) \/
               In r (closed_positions (self w))) /\
  (List.length (positions (self w)) + List.length (closed_positions (self w))
   = List.length (positions (self w0))
     + List.length (closed_positions (self w0)))%nat.

(** The position held under [k], if it is priced, has neither its stop
    nor its target hit at the snapshot price. *)
Definition settled (current_prices : Py.dict Q) (w : World) (k : string)
  : Prop :=
  forall r price,
    Py.get k (positions (self w)) = Some r ->
    Py.get k current_prices = Some price ->
    PortfolioM.stop_loss_triggered (heap w r) price = false /\
    PortfolioM.take_profit_triggered (heap w r) price = false.

(** The priced open positions have nonzero entry prices. *)
Definition priced_entries_nonzero (current_prices : Py.dict Q) (w : World)
  : Prop :=
  forall k r,
    Py.get k (positions (self w)) = Some r ->
    Py.mem k current_prices = true ->
    ~ entry_price (heap w r) == 0.


(** [update_portfolio] appends this sample when its loop has returned. *)
Definition with_sample (w : World) (current_prices : Py.dict Q)
    (current_time : Py.timestamp) : World :=
  let s := self w in
  {| heap := heap w;
     self :=
       {| initial_capital := initial_capital s;
          cash := cash s;
          positions := positions s;
          closed_positions := closed_positions s;
          equity_curve :=
            equity_curve s ++
            [ {| es_timestamp := current_time;
                 es_portfolio_value :=
                   PortfolioM.accumulate (heap w) current_prices
                     (positions s) (cash s);
                 es_cash := cash s |} ];
          transactions := transactions s |} |}.

(** A second desk of objects: a long and a short position with targets,
    a position of quantity zero and one with a zero entry price. *)
Module Desk.
Import PortfolioM.

Definition rules : ExitRules := {| trailing := true; percentage := 0.05 |}.

Definition nvda : Position :=
  PositionM.init "NVDA" 20 100 0%Z (Some 90) (Some 130).
Definition tsla : Position :=
  PositionM.init "TSLA" (-4) 200 0%Z (Some 210) (Some 180).
Definition flat : Position :=
  PositionM.init "SPY" 0 400 0%Z (Some 390) (Some 410).
Definition gift : Position :=
  PositionM.init "GIFT" 5 0 0%Z None None.

Definition objects (r : ref) : Position :=
  match r with
  | 0%nat => nvda
  | 1%nat => tsla
  | 2%nat => flat
  | _ => gift
  end.

Definition w0 : World :=
  {| heap := objects; self := PortfolioM.init 50000 |}.

(** All three are open. *)
Definition w3 : World :=
  add_position (add_position (add_position w0 0%nat) 1%nat) 2%nat.

Definition snapshot : Py.dict Q :=
  [("NVDA"%string, 120); ("TSLA"%string, 215)].



(** Only the position with the zero entry price is open. *)
Definition w_gift : World := add_position w0 3%nat.

End Desk.

(** ** Running the ledger on the scenario of the specification *)

Module Scenario.
Import PortfolioM.

Definition rules : ExitRules := {| trailing := true; percentage := 0.05 |}.

(** Four position objects: two for AAPL, a long MSFT with a target,
    and a short TSLA. *)
Definition aapl : Position :=
  PositionM.init "AAPL" 10 150 0%Z (Some 145) None.
Definition aapl_again : Position :=
  PositionM.init "AAPL" 5 160 1%Z None None.
Definition msft : Position :=
  PositionM.init "MSFT" 10 150 0%Z (Some 145) (Some 160).
Definition tsla : Position :=
  PositionM.init "TSLA" (-4) 200 0%Z (Some 210) None.

Definition objects (r : ref) : Position :=
  match r with
  | 0%nat => aapl
  | 1%nat => aapl_again
  | 2%nat => msft
  | _ => tsla
  end.

Definition w0 : World :=
  {| heap := objects; self := PortfolioM.init 100000 |}.

(** Long AAPL, 10 at 150. *)
Definition w1 : World := add_position w0 0%nat.

(** The price falls to 140, below the stop at 145. *)
Definition w2 : World := world_of (update_position rules w1 "AAPL" 140 1%Z).

(** Long MSFT, 10 at 150, on its own. *)
Definition w3 : World := add_position w0 2%nat.

(** Short TSLA, 4 at 200, on its own. *)
Definition w4 : World := add_position w0 3%nat.

(** Long AAPL and long MSFT, and a snapshot that prices AAPL only. *)
Definition w5 : World := add_position w1 2%nat.
Definition aapl_only : Py.dict Q := [("AAPL"%string, 155)].

End Scenario.

(** ** Facts about the primitives *)

Lemma ltb_true (x y : Q) : Py.ltb x y = true <-> x < y.
Proof.
  unfold Py.ltb. rewrite negb_true_iff.
  split; intro H.
  - apply Qnot_le_lt. intro Hle. apply Qle_bool_iff in Hle. congruence.
  - destruct (Qle_bool y x) eqn:E; [|reflexivity].
    apply Qle_bool_iff in E. exfalso. apply (Qlt_not_le _ _ H E).
Qed.

Lemma ltb_false (x y : Q) : Py.ltb x y = false <-> y <= x.
Proof.
  unfold Py.ltb. rewrite negb_false_iff. apply Qle_bool_iff.
Qed.

Lemma truediv_nonzero (x y : Q) : ~ y == 0 -> Py.truediv x y = Some (x / y).
Proof.
  intro H. unfold Py.truediv.
  destruct (Qeq_bool y 0) eqn:E; [|reflexivity].
  apply Qeq_bool_iff in E. contradiction.
Qed.

Lemma truediv_zero (x y : Q) : y == 0 -> Py.truediv x y = None.
Proof.
  intro H. unfold Py.truediv. apply Qeq_bool_iff in H. now rewrite H.
Qed.

Lemma side_sign_long (q : Q) : 0 < q -> PositionM.side_sign q = 1.
Proof.
  intro H. unfold PositionM.side_sign. apply ltb_true in H. now rewrite H.
Qed.

Lemma side_sign_not_long (q : Q) : q <= 0 -> PositionM.side_sign q = -1.
Proof.
  intro H. unfold PositionM.side_sign. apply ltb_false in H. now rewrite H.
Qed.

(** ** Closing a position *)

(** C7, as the code has it: closing a position with a nonzero entry
    price [n] at exit price [e] completes, realizes
    [pnl = (e - n) * q], sets the percentage to [(e/n - 1) * 100] for a
    long position ([q > 0]) and to its opposite for every other quantity
    ([q <= 0]), and sets the status to "closed". *)
Theorem close_realizes_pnl (p : Position) (e : Q) (t : Py.timestamp) :
  ~ entry_price p == 0 ->
  exists p',
    PositionM.close p e t = PositionM.Done p' /\
    pnl p' = (e - entry_price p) * quantity p /\
    (0 < quantity p -> pnl_percentage p' == (e / entry_price p - 1) * 100) /\
    (quantity p <= 0 ->
       pnl_percentage p' == - ((e / entry_price p - 1) * 100)) /\
    status p' = "closed"%string.
Proof.
  intro Hn. unfold PositionM.close.
  rewrite (truediv_nonzero e _ Hn).
  eexists. split; [reflexivity|]. cbn.
  repeat split.
  - intro Hq. rewrite (side_sign_long _ Hq). ring.
  - intro Hq. rewrite (side_sign_not_long _ Hq). ring.
Qed.

Lemma close_realizes_pnl_witness :
  ~ entry_price Scenario.aapl == 0 /\
  exists p',
    PositionM.close Scenario.aapl 140 1%Z = PositionM.Done p' /\
    pnl p' = (140 - 150) * 10 /\
    (0 < 10 -> pnl_percentage p' == (140 / 150 - 1) * 100) /\
    (10 <= 0 -> pnl_percentage p' == - ((140 / 150 - 1) * 100)) /\
    status p' = "closed"%string.
Proof.
  assert (H : ~ entry_price Scenario.aapl == 0) by (vm_compute; discriminate).
  split; [exact H|].
  exact (close_realizes_pnl Scenario.aapl 140 1%Z H).
Defined.

(** C7 fails as stated at quantity 0: the position is not short, yet the
    percentage has the flipped sign. *)
Lemma zero_quantity_sign_flipped :
  let p := PositionM.init "AAPL" 0 150 0%Z None None in
  ~ quantity p < 0 /\
  ~ entry_price p == 0 /\
  exists p',
    PositionM.close p 140 1%Z = PositionM.Done p' /\
    pnl_percentage p' == - ((140 / 150 - 1) * 100) /\
    ~ pnl_percentage p' == (140 / 150 - 1) * 100.
Proof.
  cbn. split; [intro H; discriminate H|]. split; [intro H; discriminate H|].
  eexists. split; [reflexivity|]. cbn.
  split; [reflexivity | intro H; discriminate H].
Qed.

(** ** Facts about dicts *)

Lemma get_del_same {V} (k : string) (d : Py.dict V) :
  Py.get k (Py.del k d) = None.
Proof.
  unfold Py.del.
  induction d as [|[k' v] d IH]; cbn; [reflexivity|].
  destruct (String.eqb k k') eqn:E; cbn; [exact IH|].
  rewrite E. exact IH.
Qed.

Lemma get_del_other {V} (k k' : string) (d : Py.dict V) :
  k <> k' -> Py.get k' (Py.del k d) = Py.get k' d.
Proof.
  intro Hne. unfold Py.del.
  induction d as [|[k1 v] d IH]; cbn; [reflexivity|].
  destruct (String.eqb k k1) eqn:E; cbn.
  - apply String.eqb_eq in E. subst k1.
    destruct (String.eqb k' k) eqn:E'; [|exact IH].
    apply String.eqb_eq in E'. congruence.
  - rewrite IH. reflexivity.
Qed.

Lemma get_set_same {V} (k : string) (v : V) (d : Py.dict V) :
  Py.get k (Py.set k v d) = Some v.
Proof.
  induction d as [|[k' v'] d IH]; cbn.
  - now rewrite String.eqb_refl.
  - destruct (String.eqb k k') eqn:E; cbn; rewrite E; [reflexivity|exact IH].
Qed.

Lemma get_set_other {V} (k k' : string) (v : V) (d : Py.dict V) :
  k <> k' -> Py.get k' (Py.set k v d) = Py.get k' d.
Proof.
  intro Hne. induction d as [|[k1 v1] d IH]; cbn.
  - destruct (String.eqb k' k) eqn:E; [|reflexivity].
    apply String.eqb_eq in E. congruence.
  - destruct (String.eqb k k1) eqn:E; cbn.
    + apply String.eqb_eq in E. subst k1.
      destruct (String.eqb k' k) eqn:E'; [|reflexivity].
      apply String.eqb_eq in E'. congruence.
    + now rewrite IH.
Qed.

Lemma get_some_in {V} (k : string) (v : V) (d : Py.dict V) :
  Py.get k d = Some v -> In (k, v) d.
Proof.
  induction d as [|[k' v'] d IH]; cbn; [discriminate|].
  destruct (String.eqb k k') eqn:E.
  - apply String.eqb_eq in E. intros [= ->]. left. now subst.
  - intro H. right. auto.
Qed.

Lemma get_none_not_key {V} (k : string) (d : Py.dict V) :
  Py.get k d = None <-> ~ In k (Py.keys d).
Proof.
  induction d as [|[k' v'] d IH]; cbn.
  - tauto.
  - destruct (String.eqb k k') eqn:E.
    + apply String.eqb_eq in E. subst. split; [discriminate|]. tauto.
    + apply String.eqb_neq in E. rewrite IH. split.
      * intros H [H1|H1]; [congruence|tauto].
      * tauto.
Qed.

(** On an absent key [d[k] = v] appends. *)
Lemma set_absent {V} (k : string) (v : V) (d : Py.dict V) :
  Py.get k d = None -> Py.set k v d = d ++ [(k, v)].
Proof.
  induction d as [|[k' v'] d IH]; cbn; [reflexivity|].
  destruct (String.eqb k k') eqn:E; [discriminate|].
  intro H. now rewrite IH.
Qed.

(** The dict operations keep the keys unique. *)
Lemma keys_set {V} (k : string) (v : V) (d : Py.dict V) :
  NoDup (Py.keys d) -> NoDup (Py.keys (Py.set k v d)).
Proof.
  intro Hd. destruct (Py.get k d) eqn:G.
  - assert (E : Py.keys (Py.set k v d) = Py.keys d).
    { clear Hd. revert G. induction d as [|[k' v'] d IH]; cbn; [discriminate|].
      destruct (String.eqb k k') eqn:E; cbn; [reflexivity|].
      intro G. f_equal. exact (IH G). }
    now rewrite E.
  - rewrite (set_absent _ _ _ G). unfold Py.keys. rewrite map_app. cbn.
    apply get_none_not_key in G.
    apply NoDup_app; [exact Hd| repeat constructor; intros [] | ].
    intros a Ha [Hb|[]]. subst. exact (G Ha).
Qed.

Lemma keys_del {V} (k : string) (d : Py.dict V) :
  NoDup (Py.keys d) -> NoDup (Py.keys (Py.del k d)).
Proof.
  induction d as [|[k' v'] d IH]; cbn; [auto|].
  intro H. inversion H as [|? ? Hn Hd]; subst.
  destruct (String.eqb k k'); cbn; [auto|].
  constructor; [|auto].
  intro Hin. apply Hn. unfold Py.keys, Py.del in *.
  apply in_map_iff in Hin. destruct Hin as [x [Hx Hf]].
  apply filter_In in Hf. apply in_map_iff. exists x. tauto.
Qed.

(** ** Opening and closing on the ledger *)

Section Ledger.
Import PortfolioM.

(** C5: for a ticker with no open position [close_position] and
    [update_position] return normally and leave the whole world as it
    was; after a close that returned, a second close or an update of the
    same ticker changes nothing. *)
Theorem absent_ticker_noop (R : ExitRules) (w : World) (tkr : string) :
  (Py.get tkr (positions (self w)) = None ->
   (forall e t, close_position w tkr e t = Returned w) /\
   (forall p t, update_position R w tkr p t = Returned w)) /\
  (forall e t w1,
     close_position w tkr e t = Returned w1 ->
     (forall e' t', close_position w1 tkr e' t' = Returned w1) /\
     (forall p' t', update_position R w1 tkr p' t' = Returned w1)).
Proof.
  assert (Habsent : forall w0 : World,
             Py.get tkr (positions (self w0)) = None ->
             (forall e t, close_position w0 tkr e t = Returned w0) /\
             (forall p t, update_position R w0 tkr p t = Returned w0)).
  { intros w0 H. split; intros;
      [unfold close_position | unfold update_position]; now rewrite H. }
  split; [apply Habsent|].
  intros e t w1 Hclose. apply Habsent.
  unfold close_position in Hclose.
  destruct (Py.get tkr (positions (self w))) as [r|] eqn:G.
  - destruct (PositionM.close (heap w r) e t); [|discriminate].
    injection Hclose as <-. cbn. apply get_del_same.
  - injection Hclose as <-. exact G.
Qed.

Lemma absent_ticker_noop_witness :
  (Py.get "MSFT" (positions (self Scenario.w1)) = None /\
   close_position Scenario.w1 "MSFT" 140 1%Z = Returned Scenario.w1 /\
   update_position Scenario.rules Scenario.w1 "MSFT" 140 1%Z
     = Returned Scenario.w1) /\
  (close_position Scenario.w1 "AAPL" 140 1%Z = Returned Scenario.w2 /\
   close_position Scenario.w2 "AAPL" 155 2%Z = Returned Scenario.w2).
Proof.
  pose proof (absent_ticker_noop Scenario.rules Scenario.w1 "MSFT") as [H _].
  pose proof (absent_ticker_noop Scenario.rules Scenario.w1 "AAPL") as [_ H'].
  assert (G : Py.get "MSFT" (positions (self Scenario.w1)) = None)
    by reflexivity.
  assert (C : close_position Scenario.w1 "AAPL" 140 1%Z = Returned Scenario.w2)
    by reflexivity.
  split.
  - split; [exact G|]. destruct (H G) as [Hc Hu]. split; [apply Hc|apply Hu].
  - split; [exact C|]. destruct (H' _ _ _ C) as [Hc _]. apply Hc.
Defined.

(** C2, as the code has it: [add_position] has no check for a ticker that
    is already held.  Whatever the world, it returns normally, debits the
    cash by [quantity * entry_price], stores the new object under its
    ticker (in place of an object held there before), appends one "open"
    transaction and touches nothing else. *)
Theorem add_position_always_adds (w : World) (position : ref) :
  let p := heap w position in
  let w' := add_position w position in
  cash (self w') = cash (self w) - quantity p * entry_price p /\
  Py.get (ticker p) (positions (self w')) = Some position /\
  (forall k, k <> ticker p ->
     Py.get k (positions (self w')) = Py.get k (positions (self w))) /\
  transactions (self w') =
    transactions (self w) ++
    [ {| tx_type := "open"; tx_ticker := ticker p;
         tx_quantity := quantity p; tx_price := entry_price p;
         tx_timestamp := entry_time p;
         tx_value := quantity p * entry_price p;
         tx_pnl := None; tx_pnl_percentage := None |} ] /\
  closed_positions (self w') = closed_positions (self w) /\
  equity_curve (self w') = equity_curve (self w) /\
  initial_capital (self w') = initial_capital (self w) /\
  heap w' = heap w.
Proof.
  cbn. repeat split.
  - apply get_set_same.
  - intros k Hk. apply get_set_other. congruence.
Qed.

(** C2 fails as stated: with AAPL held (10 at 150), adding a second AAPL
    position (5 at 160) is not rejected; the cash, the open-position map
    and the transaction log all change. *)
Lemma add_position_duplicate_not_rejected :
  let w := Scenario.w1 in
  let w' := add_position w 1%nat in
  ticker (heap w 1%nat) = "AAPL"%string /\
  Py.get "AAPL" (positions (self w)) = Some 0%nat /\
  cash (self w) == 98500 /\
  cash (self w') == 97700 /\
  ~ cash (self w') == cash (self w) /\
  positions (self w') <> positions (self w) /\
  transactions (self w') <> transactions (self w).
Proof.
  cbn. repeat split; try reflexivity; try discriminate.
Qed.

End Ledger.

(** ** The object store *)

Lemma store_same (h : ref -> Position) (r : ref) (p : Position) :
  store h r p r = p.
Proof. unfold store. now rewrite Nat.eqb_refl. Qed.

Lemma store_other (h : ref -> Position) (r r0 : ref) (p : Position) :
  r0 <> r -> store h r p r0 = h r0.
Proof.
  intro H. unfold store. apply Nat.eqb_neq in H. now rewrite H.
Qed.

Lemma same_terms_refl (p : Position) : same_terms p p.
Proof. repeat split. Qed.

Lemma close_object (p : Position) (e : Q) (t : Py.timestamp) :
  match PositionM.close p e t with
  | PositionM.Done p' =>
      same_terms p p' /\ stop_loss p' = stop_loss p /\
      status p' = "closed"%string /\ ~ entry_price p == 0
  | PositionM.Fail _ p' =>
      same_terms p p' /\ stop_loss p' = stop_loss p /\
      status p' = status p /\ entry_price p == 0
  end.
Proof.
  unfold PositionM.close, Py.truediv.
  destruct (Qeq_bool (entry_price p) 0) eqn:E; cbn.
  - repeat split. now apply Qeq_bool_iff.
  - repeat split. intro H. apply Qeq_bool_iff in H. congruence.
Qed.

Section Closing.
Import PortfolioM.

(** [close_position] on a held ticker whose object has a nonzero entry
    price. *)
Lemma close_position_held (w : World) (tkr : string) (r : ref) (e : Q)
    (t : Py.timestamp) :
  Py.get tkr (positions (self w)) = Some r ->
  ~ entry_price (heap w r) == 0 ->
  exists w',
    close_position w tkr e t = Returned w' /\
    Py.get tkr (positions (self w')) = None /\
    closed_positions (self w') = closed_positions (self w) ++ [r] /\
    cash (self w') = cash (self w) + quantity (heap w r) * e /\
    List.length (transactions (self w')) =
      S (List.length (transactions (self w))) /\
    status (heap w' r) = "closed"%string /\
    stop_loss (heap w' r) = stop_loss (heap w r) /\
    pnl (heap w' r) = (e - entry_price (heap w r)) * quantity (heap w r).
Proof.
  intros G Hn. unfold close_position. rewrite G.
  unfold PositionM.close. rewrite (truediv_nonzero e _ Hn).
  eexists. split; [reflexivity|]. cbn. rewrite store_same. cbn.
  repeat split.
  - apply get_del_same.
  - rewrite length_app. cbn. lia.
Qed.

(** Whatever [close_position] does, every object keeps its terms and its
    stop. *)
Lemma close_position_object (w : World) (tkr : string) (e : Q)
    (t : Py.timestamp) (r0 : ref) :
  let w' := world_of (close_position w tkr e t) in
  same_terms (heap w r0) (heap w' r0) /\
  stop_loss (heap w' r0) = stop_loss (heap w r0).
Proof.
  unfold close_position.
  destruct (Py.get tkr (positions (self w))) as [r|]; cbn;
    [|split; [apply same_terms_refl|reflexivity]].
  pose proof (close_object (heap w r) e t) as H.
  destruct (PositionM.close (heap w r) e t) as [p'|ex p']; cbn;
    (destruct (Nat.eq_dec r0 r) as [->|Hne];
     [rewrite store_same; tauto
     |rewrite (store_other _ _ _ _ Hne);
      split; [apply same_terms_refl|reflexivity]]).
Qed.

End Closing.

(** ** Exit triggers *)

Section Triggers.
Import PortfolioM.

Lemma stop_loss_triggered_long (position : Position) (p S : Q) :
  0 < quantity position -> stop_loss position = Some S ->
  (stop_loss_triggered position p = true <-> p <= S).
Proof.
  intros Hq HS. unfold stop_loss_triggered. rewrite HS.
  assert (H1 : Py.ltb 0 (quantity position) = true) by now apply ltb_true.
  assert (H2 : Py.ltb (quantity position) 0 = false)
    by (apply ltb_false; now apply Qlt_le_weak).
  rewrite H1, H2. cbn. rewrite orb_false_r. apply Qle_bool_iff.
Qed.

Lemma take_profit_triggered_long (position : Position) (p : Q) :
  0 < quantity position ->
  (take_profit_triggered position p = true <->
   exists T, take_profit position = Some T /\ T <= p).
Proof.
  intros Hq. unfold take_profit_triggered.
  assert (H1 : Py.ltb 0 (quantity position) = true) by now apply ltb_true.
  assert (H2 : Py.ltb (quantity position) 0 = false)
    by (apply ltb_false; now apply Qlt_le_weak).
  destruct (take_profit position) as [T|].
  - rewrite H1, H2. cbn. rewrite orb_false_r. rewrite Qle_bool_iff.
    split; [intro H; now exists T | intros [T' [[= <-] H]]; exact H].
  - split; [discriminate | intros [T [[=] _]]].
Qed.

Variable R : ExitRules.

(** [update_position] on a held ticker whose object has a nonzero entry
    price is the three-way branch of the source. *)
Lemma update_position_held (w : World) (tkr : string) (r : ref) (p : Q)
    (t : Py.timestamp) :
  Py.get tkr (positions (self w)) = Some r ->
  ~ entry_price (heap w r) == 0 ->
  update_position R w tkr p t =
    if stop_loss_triggered (heap w r) p then close_position w tkr p t
    else if take_profit_triggered (heap w r) p then close_position w tkr p t
    else Returned (trailing_stop R w r p).
Proof.
  intros G Hn. unfold update_position. rewrite G.
  now rewrite (truediv_nonzero p _ Hn).
Qed.

Lemma trailing_stop_ledger (w : World) (r : ref) (p : Q) :
  self (trailing_stop R w r p) = self w.
Proof.
  unfold trailing_stop.
  destruct (trailing R); [|reflexivity].
  destruct (stop_loss (heap w r)); [|reflexivity].
  destruct (Py.ltb 0 (quantity (heap w r)));
    match goal with |- context [if ?b then _ else _] => destruct b end;
    reflexivity.
Qed.

(** C6: a call on an open position raises at once, before any check,
    when the entry price is zero; otherwise it returns, and its effect is
    decided in a fixed order.  If the stop-loss test holds the whole
    effect is that of one [close_position] and the stop is not
    recomputed, whatever the take-profit test says; otherwise, if the
    take-profit test holds, the same; only when both tests fail is the
    trailing-stop block run, and then the ledger is untouched. *)
Theorem exit_triggers_in_order (w : World) (tkr : string) (r : ref) (p : Q)
    (t : Py.timestamp) :
  Py.get tkr (positions (self w)) = Some r ->
  (entry_price (heap w r) == 0 ->
   update_position R w tkr p t = Raised Py.ZeroDivisionError w) /\
  (~ entry_price (heap w r) == 0 ->
   exists w',
     update_position R w tkr p t = Returned w' /\
     (stop_loss_triggered (heap w r) p = true ->
        close_position w tkr p t = Returned w' /\
        closed_positions (self w') = closed_positions (self w) ++ [r] /\
        stop_loss (heap w' r) = stop_loss (heap w r)) /\
     (stop_loss_triggered (heap w r) p = false ->
      take_profit_triggered (heap w r) p = true ->
        close_position w tkr p t = Returned w' /\
        closed_positions (self w') = closed_positions (self w) ++ [r] /\
        stop_loss (heap w' r) = stop_loss (heap w r)) /\
     (stop_loss_triggered (heap w r) p = false ->
      take_profit_triggered (heap w r) p = false ->
        w' = trailing_stop R w r p /\ self w' = self w)).
Proof.
  intros G. split.
  - intro H0. unfold update_position. rewrite G.
    now rewrite (truediv_zero p _ H0).
  - intro Hn. rewrite (update_position_held w tkr r p t G Hn).
    destruct (close_position_held w tkr r p t G Hn)
      as [wc [Hc [_ [Hcl [_ [_ [_ [Hs _]]]]]]]].
    destruct (stop_loss_triggered (heap w r) p);
      [|destruct (take_profit_triggered (heap w r) p)].
    + exists wc. repeat split; try discriminate; auto.
    + exists wc. repeat split; try discriminate; auto.
    + exists (trailing_stop R w r p).
      repeat split; try discriminate. apply trailing_stop_ledger.
Qed.

(** C3, as the code has it: a long position with a nonzero entry price
    and stop [S] is closed by the call exactly when [p <= S] or its
    take-profit target [T] is set and [T <= p]; when [S < p] and no
    target is reached the ledger is untouched and the position stays
    open. *)
Theorem long_position_closed_iff (w : World) (tkr : string) (r : ref)
    (p S : Q) (t : Py.timestamp) :
  Py.get tkr (positions (self w)) = Some r ->
  ~ entry_price (heap w r) == 0 ->
  0 < quantity (heap w r) ->
  stop_loss (heap w r) = Some S ->
  exists w',
    update_position R w tkr p t = Returned w' /\
    (Py.get tkr (positions (self w')) = None <->
     p <= S \/ exists T, take_profit (heap w r) = Some T /\ T <= p) /\
    (p <= S -> close_position w tkr p t = Returned w') /\
    (S < p -> (forall T, take_profit (heap w r) = Some T -> p < T) ->
     self w' = self w /\ Py.get tkr (positions (self w')) = Some r /\
     status (heap w' r) = status (heap w r)).
Proof.
  intros G Hn Hq HS.
  rewrite (update_position_held w tkr r p t G Hn).
  pose proof (stop_loss_triggered_long (heap w r) p S Hq HS) as Hstop.
  pose proof (take_profit_triggered_long (heap w r) p Hq) as Htp.
  destruct (close_position_held w tkr r p t G Hn)
    as [wc [Hc [Hgone _]]].
  destruct (stop_loss_triggered (heap w r) p) eqn:E1;
    [|destruct (take_profit_triggered (heap w r) p) eqn:E2].
  - assert (HpS : p <= S) by now apply Hstop.
    exists wc. split; [exact Hc|]. split; [|split].
    + split; [intros _; now left | intros _; exact Hgone].
    + intros _. exact Hc.
    + intro Hlt. exfalso. apply (Qlt_not_le _ _ Hlt HpS).
  - assert (HT : exists T, take_profit (heap w r) = Some T /\ T <= p)
      by now apply Htp.
    exists wc. split; [exact Hc|]. split; [|split].
    + split; [intros _; now right | intros _; exact Hgone].
    + intro HpS. apply Hstop in HpS. discriminate.
    + intros _ Hall. exfalso. destruct HT as [T [HT1 HT2]].
      apply (Qlt_not_le _ _ (Hall T HT1) HT2).
  - exists (trailing_stop R w r p). split; [reflexivity|].
    rewrite trailing_stop_ledger. split; [|split].
    + split.
      * intro H. rewrite G in H. discriminate.
      * intros [HpS|HT]; [apply Hstop in HpS | apply Htp in HT]; discriminate.
    + intro HpS. apply Hstop in HpS. discriminate.
    + intros _ _. split; [reflexivity|]. split; [exact G|].
      unfold trailing_stop.
      destruct (trailing R); [|reflexivity].
      rewrite HS.
      destruct (Py.ltb 0 (quantity (heap w r)));
        match goal with |- context [if ?b then _ else _] => destruct b end;
        cbn; rewrite ?store_same; reflexivity.
Qed.

End Triggers.

Lemma exit_triggers_in_order_witness :
  Py.get "MSFT" (positions (self Scenario.w3)) = Some 2%nat /\
  ~ entry_price (heap Scenario.w3 2%nat) == 0 /\
  exists w',
    PortfolioM.update_position Scenario.rules Scenario.w3 "MSFT" 170 1%Z
      = Returned w' /\
    closed_positions (self w') = [2%nat] /\
    stop_loss (heap w' 2%nat) = Some 145.
Proof.
  assert (G : Py.get "MSFT" (positions (self Scenario.w3)) = Some 2%nat)
    by reflexivity.
  assert (Hn : ~ entry_price (heap Scenario.w3 2%nat) == 0)
    by (vm_compute; discriminate).
  split; [exact G|]. split; [exact Hn|].
  destruct (exit_triggers_in_order Scenario.rules Scenario.w3 "MSFT" 2%nat
              170 1%Z G) as [_ Hret].
  destruct (Hret Hn) as [w' [Hu [_ [Htp _]]]].
  exists w'. split; [exact Hu|].
  destruct (Htp eq_refl eq_refl) as [_ [Hc Hs]].
  split; [exact Hc | exact Hs].
Defined.

(** C3 fails as stated: a long MSFT position, 10 at 150 with stop 145 and
    target 160, is closed by [update_position] at the price 170, which is
    above the stop. *)
Lemma long_closed_above_stop :
  let w := Scenario.w3 in
  let w' := world_of
              (PortfolioM.update_position Scenario.rules w "MSFT" 170 1%Z) in
  Py.get "MSFT" (positions (self w)) = Some 2%nat /\
  0 < quantity (heap w 2%nat) /\
  stop_loss (heap w 2%nat) = Some 145 /\
  ~ 170 <= 145 /\
  Py.get "MSFT" (positions (self w')) = None /\
  closed_positions (self w') = [2%nat] /\
  status (heap w' 2%nat) = "closed"%string /\
  cash (self w') == 100200.
Proof.
  cbn. repeat split; try reflexivity.
  intro H. apply H. reflexivity.
Qed.

Lemma long_position_closed_iff_witness :
  Py.get "AAPL" (positions (self Scenario.w1)) = Some 0%nat /\
  ~ entry_price (heap Scenario.w1 0%nat) == 0 /\
  0 < quantity (heap Scenario.w1 0%nat) /\
  stop_loss (heap Scenario.w1 0%nat) = Some 145 /\
  exists w',
    PortfolioM.update_position Scenario.rules Scenario.w1 "AAPL" 140 1%Z
      = Returned w' /\
    Py.get "AAPL" (positions (self w')) = None.
Proof.
  assert (G : Py.get "AAPL" (positions (self Scenario.w1)) = Some 0%nat)
    by reflexivity.
  assert (Hn : ~ entry_price (heap Scenario.w1 0%nat) == 0)
    by (vm_compute; discriminate).
  assert (Hq : 0 < quantity (heap Scenario.w1 0%nat)) by reflexivity.
  assert (HS : stop_loss (heap Scenario.w1 0%nat) = Some 145) by reflexivity.
  repeat (split; [assumption|]).
  destruct (long_position_closed_iff Scenario.rules Scenario.w1 "AAPL" 0%nat
              140 145 1%Z G Hn Hq HS) as [w' [Hu [Hiff _]]].
  exists w'. split; [exact Hu|].
  apply Hiff. left. vm_compute. discriminate.
Defined.

(** ** Trailing stops *)

Section Trailing.
Import PortfolioM.
Variable R : ExitRules.

(** What one [update_position] call does to an arbitrary object [r0]: its
    terms stay, and its stop either stays or is moved by the trailing
    block, upwards for a long position and downwards otherwise. *)
Lemma update_position_object (w : World) (tkr : string) (p : Q)
    (t : Py.timestamp) (r0 : ref) :
  let w' := world_of (update_position R w tkr p t) in
  same_terms (heap w r0) (heap w' r0) /\
  (stop_loss (heap w' r0) = stop_loss (heap w r0) \/
   (trailing R = true /\
    Py.get tkr (positions (self w)) = Some r0 /\
    ~ entry_price (heap w r0) == 0 /\
    exists s,
      stop_loss (heap w r0) = Some s /\
      ((0 < quantity (heap w r0) /\
        s < p * (1 - percentage R) /\
        stop_loss (heap w' r0) = Some (p * (1 - percentage R))) \/
       (quantity (heap w r0) <= 0 /\
        p * (1 + percentage R) < s /\
        stop_loss (heap w' r0) = Some (p * (1 + percentage R)))))).
Proof.
  unfold update_position.
  destruct (Py.get tkr (positions (self w))) as [r|] eqn:G; cbn;
    [|split; [apply same_terms_refl | now left]].
  destruct (Py.truediv p (entry_price (heap w r))) eqn:ED; cbn;
    [|split; [apply same_terms_refl | now left]].
  assert (Hn : ~ entry_price (heap w r) == 0).
  { intro H0. rewrite (truediv_zero p _ H0) in ED. discriminate. }
  pose proof (close_position_object w tkr p t r0) as [Hc1 Hc2].
  destruct (stop_loss_triggered (heap w r) p); [split; [exact Hc1 | now left]|].
  destruct (take_profit_triggered (heap w r) p);
    [split; [exact Hc1 | now left]|].
  clear Hc1 Hc2. cbn. unfold trailing_stop.
  destruct (trailing R) eqn:ET; [|split; [apply same_terms_refl | now left]].
  destruct (stop_loss (heap w r)) as [s|] eqn:ES;
    [|split; [apply same_terms_refl | now left]].
  destruct (Py.ltb 0 (quantity (heap w r))) eqn:EQ.
  - destruct (Py.ltb s (p * (1 - percentage R))) eqn:EN;
      [|split; [apply same_terms_refl | now left]].
    cbn. destruct (Nat.eq_dec r0 r) as [->|Hne].
    + rewrite store_same. cbn. split; [repeat split|].
      right. split; [reflexivity|]. split; [reflexivity|].
      split; [exact Hn|].
      exists s. split; [exact ES|]. left.
      apply ltb_true in EQ. apply ltb_true in EN. auto.
    + rewrite (store_other _ _ _ _ Hne).
      split; [apply same_terms_refl | now left].
  - destruct (Py.ltb (p * (1 + percentage R)) s) eqn:EN;
      [|split; [apply same_terms_refl | now left]].
    cbn. destruct (Nat.eq_dec r0 r) as [->|Hne].
    + rewrite store_same. cbn. split; [repeat split|].
      right. split; [reflexivity|]. split; [reflexivity|].
      split; [exact Hn|].
      exists s. split; [exact ES|]. right.
      apply ltb_false in EQ. apply ltb_true in EN. auto.
    + rewrite (store_other _ _ _ _ Hne).
      split; [apply same_terms_refl | now left].
Qed.

Lemma update_many_terms (calls : list update_call) (w : World) (r0 : ref) :
  same_terms (heap w r0) (heap (update_many R calls w) r0).
Proof.
  revert w. induction calls as [|[[tkr p] t] rest IH]; intro w; cbn.
  - apply same_terms_refl.
  - destruct (update_position_object w tkr p t r0) as [H _].
    specialize (IH (world_of (update_position R w tkr p t))).
    unfold same_terms in *. intuition congruence.
Qed.

(** C10: an object whose stop is [None] keeps the stop [None] through any
    sequence of [update_position] calls, for any tickers and prices and
    any trailing configuration. *)
Theorem no_stop_stays_none (calls : list update_call) (w : World) (r : ref) :
  stop_loss (heap w r) = None ->
  stop_loss (heap (update_many R calls w) r) = None.
Proof.
  revert w. induction calls as [|[[tkr p] t] rest IH]; intros w H; cbn.
  - exact H.
  - apply IH.
    destruct (update_position_object w tkr p t r) as [_ [Hs|Hs]].
    + cbn in Hs. now rewrite Hs.
    + destruct Hs as [_ [_ [_ [s [Hs _]]]]]. congruence.
Qed.

Lemma stop_le_refl (a : option Q) : stop_le a a.
Proof. destruct a; cbn; [apply Qle_refl | exact I]. Qed.

Lemma stop_le_trans (a b c : option Q) :
  stop_le a b -> stop_le b c -> stop_le a c.
Proof.
  destruct a, b, c; cbn; try tauto. apply Qle_trans.
Qed.

Lemma update_position_long_stop (w : World) (tkr : string) (p : Q)
    (t : Py.timestamp) (r : ref) :
  0 < quantity (heap w r) ->
  stop_le (stop_loss (heap w r))
          (stop_loss (heap (world_of (update_position R w tkr p t)) r)).
Proof.
  intro Hq. destruct (update_position_object w tkr p t r) as [_ [Hs|Hs]].
  - cbn in Hs. rewrite Hs. apply stop_le_refl.
  - destruct Hs as [_ [_ [_ [s [Hs [[_ [Hlt Hn]]|[Hle _]]]]]]].
    + cbn in Hn. rewrite Hs, Hn. cbn. now apply Qlt_le_weak.
    + exfalso. apply (Qlt_not_le _ _ Hq Hle).
Qed.

Lemma update_position_short_stop (w : World) (tkr : string) (p : Q)
    (t : Py.timestamp) (r : ref) :
  quantity (heap w r) < 0 ->
  stop_le (stop_loss (heap (world_of (update_position R w tkr p t)) r))
          (stop_loss (heap w r)).
Proof.
  intro Hq. destruct (update_position_object w tkr p t r) as [_ [Hs|Hs]].
  - cbn in Hs. rewrite Hs. apply stop_le_refl.
  - destruct Hs as [_ [_ [_ [s [Hs [[Hpos _]|[_ [Hlt Hn]]]]]]]].
    + exfalso. apply (Qlt_not_le _ _ Hq). now apply Qlt_le_weak.
    + cbn in Hn. rewrite Hs, Hn. cbn. now apply Qlt_le_weak.
Qed.

Lemma update_many_long_stop (calls : list update_call) (w : World) (r : ref) :
  0 < quantity (heap w r) ->
  stop_le (stop_loss (heap w r)) (stop_loss (heap (update_many R calls w) r)).
Proof.
  revert w. induction calls as [|[[tkr p] t] rest IH]; intros w Hq; cbn.
  - apply stop_le_refl.
  - eapply stop_le_trans; [apply (update_position_long_stop w tkr p t r Hq)|].
    apply IH.
    destruct (update_position_object w tkr p t r) as [[_ [Hq' _]] _].
    cbn in Hq'. now rewrite Hq'.
Qed.

Lemma update_many_short_stop (calls : list update_call) (w : World) (r : ref) :
  quantity (heap w r) < 0 ->
  stop_le (stop_loss (heap (update_many R calls w) r)) (stop_loss (heap w r)).
Proof.
  revert w. induction calls as [|[[tkr p] t] rest IH]; intros w Hq; cbn.
  - apply stop_le_refl.
  - eapply stop_le_trans; [|apply (update_position_short_stop w tkr p t r Hq)].
    apply IH.
    destruct (update_position_object w tkr p t r) as [[_ [Hq' _]] _].
    cbn in Hq'. now rewrite Hq'.
Qed.

Lemma covered_after_update (w : World) (tkr : string) (p : Q)
    (t : Py.timestamp) (r : ref) :
  0 < quantity (heap w r) ->
  trailing R = true ->
  covered R tkr r p (world_of (update_position R w tkr p t)).
Proof.
  intros Hq HT. unfold covered, update_position.
  destruct (Py.get tkr (positions (self w))) as [r1|] eqn:G; cbn;
    [|intro H; rewrite G in H; discriminate].
  destruct (Py.truediv p (entry_price (heap w r1))) eqn:ED; cbn.
  - assert (Hn : ~ entry_price (heap w r1) == 0).
    { intro H0. rewrite (truediv_zero p _ H0) in ED. discriminate. }
    destruct (close_position_held w tkr r1 p t G Hn) as [wc [Hc [Hgone _]]].
    destruct (stop_loss_triggered (heap w r1) p);
      [rewrite Hc; cbn; intro H; rewrite Hgone in H; discriminate|].
    destruct (take_profit_triggered (heap w r1) p);
      [rewrite Hc; cbn; intro H; rewrite Hgone in H; discriminate|].
    cbn. rewrite trailing_stop_ledger. rewrite G. intros [= ->] _.
    unfold trailing_stop. rewrite HT.
    destruct (stop_loss (heap w r)) as [s0|] eqn:ES;
      [|intros s Hs; rewrite ES in Hs; discriminate].
    apply ltb_true in Hq. rewrite Hq.
    destruct (Py.ltb s0 (p * (1 - percentage R))) eqn:EN; cbn.
    + rewrite store_same. cbn. intros s [= <-]. apply Qle_refl.
    + intros s Hs. rewrite ES in Hs. injection Hs as <-.
      now apply ltb_false.
  - rewrite G. intros [= ->] Hn. exfalso. apply Hn.
    unfold Py.truediv in ED.
    destruct (Qeq_bool (entry_price (heap w r)) 0) eqn:E; [|discriminate].
    now apply Qeq_bool_iff.
Qed.

Lemma covered_update_keeps_stop (w : World) (tkr : string) (p p' : Q)
    (t' : Py.timestamp) (r : ref) :
  percentage R <= 1 ->
  0 < quantity (heap w r) ->
  covered R tkr r p w ->
  p' <= p ->
  stop_loss (heap (world_of (update_position R w tkr p' t')) r)
    = stop_loss (heap w r).
Proof.
  intros Hpct Hq Hcov Hle.
  destruct (update_position_object w tkr p' t' r) as [_ [Hs|Hs]];
    [exact Hs|].
  destruct Hs as [_ [G [Hn [s [Hs [[_ [Hlt _]]|[Hneg _]]]]]]].
  - exfalso. specialize (Hcov G Hn s Hs).
    assert (H1 : p' * (1 - percentage R) <= p * (1 - percentage R)).
    { apply Qmult_le_compat_r; [exact Hle|].
      setoid_replace 0 with (percentage R - percentage R) by ring.
      apply Qplus_le_compat; [exact Hpct | apply Qle_refl]. }
    apply (Qlt_not_le _ _ Hlt). eapply Qle_trans; eassumption.
  - exfalso. apply (Qlt_not_le _ _ Hq Hneg).
Qed.

Lemma falling_keeps_stop (tkr : string) (r : ref)
    (ticks : list (Q * Py.timestamp)) :
  percentage R <= 1 ->
  trailing R = true ->
  forall (p : Q) (w : World),
    0 < quantity (heap w r) ->
    covered R tkr r p w ->
    falling p ticks ->
    stop_loss (heap (update_many R (calls_for tkr ticks) w) r)
      = stop_loss (heap w r).
Proof.
  intros Hpct HT.
  induction ticks as [|[p' t'] rest IH]; intros p w Hq Hcov Hf; cbn;
    [reflexivity|].
  destruct Hf as [Hle Hf].
  transitivity (stop_loss (heap (world_of (update_position R w tkr p' t')) r));
    [apply (IH p' (world_of (update_position R w tkr p' t')))
    |apply (covered_update_keeps_stop w tkr p p' t' r Hpct Hq Hcov Hle)].
  - destruct (update_position_object w tkr p' t' r) as [[_ [Hq' _]] _].
    cbn in Hq'. now rewrite Hq'.
  - apply covered_after_update; assumption.
  - exact Hf.
Qed.

Lemma untrailed_keeps_stop (calls : list update_call) (w : World) (r : ref) :
  trailing R = false ->
  stop_loss (heap (update_many R calls w) r) = stop_loss (heap w r).
Proof.
  intro HT. revert w.
  induction calls as [|[[tkr p] t] rest IH]; intro w; cbn; [reflexivity|].
  rewrite IH.
  destruct (update_position_object w tkr p t r) as [_ [Hs|[HT' _]]];
    [exact Hs | congruence].
Qed.

(** C4: through any sequence of [update_position] calls the stop of a
    long position never decreases and the stop of a short position never
    increases; and, for a trailing percentage of at most 1, once a call
    for the ticker at price [p] has been made, further calls for it at
    prices that fall from [p] leave the stop of the long position as that
    first call left it. *)
Theorem trailing_stop_monotone (w : World) (r : ref) :
  (0 < quantity (heap w r) ->
   (forall calls,
      stop_le (stop_loss (heap w r))
              (stop_loss (heap (update_many R calls w) r))) /\
   (percentage R <= 1 ->
    forall tkr p t ticks,
      falling p ticks ->
      stop_loss (heap (update_many R (calls_for tkr ((p, t) :: ticks)) w) r)
        = stop_loss (heap (world_of (update_position R w tkr p t)) r))) /\
  (quantity (heap w r) < 0 ->
   forall calls,
     stop_le (stop_loss (heap (update_many R calls w) r))
             (stop_loss (heap w r))).
Proof.
  split.
  - intro Hq. split.
    + intro calls. now apply update_many_long_stop.
    + intros Hpct tkr p t ticks Hf. cbn.
      destruct (trailing R) eqn:HT.
      * apply (falling_keeps_stop tkr r ticks Hpct HT p); [| |exact Hf].
        -- destruct (update_position_object w tkr p t r) as [[_ [Hq' _]] _].
           cbn in Hq'. now rewrite Hq'.
        -- now apply covered_after_update.
      * now apply untrailed_keeps_stop.
  - intros Hq calls. now apply update_many_short_stop.
Qed.

End Trailing.

Lemma no_stop_stays_none_witness :
  stop_loss (heap (PortfolioM.add_position Scenario.w0 1%nat) 1%nat) = None /\
  stop_loss
    (heap (update_many Scenario.rules
             [("AAPL"%string, 170, 1%Z); ("AAPL"%string, 180, 2%Z)]
             (PortfolioM.add_position Scenario.w0 1%nat)) 1%nat) = None.
Proof.
  assert (H : stop_loss
                (heap (PortfolioM.add_position Scenario.w0 1%nat) 1%nat) = None)
    by reflexivity.
  split; [exact H|].
  exact (no_stop_stays_none Scenario.rules _ _ 1%nat H).
Defined.

Lemma trailing_stop_monotone_witness :
  (0 < quantity (heap Scenario.w1 0%nat) /\
   percentage Scenario.rules <= 1 /\
   falling 160 [(158, 2%Z); (155, 3%Z)] /\
   stop_le (stop_loss (heap Scenario.w1 0%nat))
     (stop_loss
        (heap (update_many Scenario.rules [("AAPL"%string, 160, 1%Z)]
                 Scenario.w1) 0%nat)) /\
   stop_loss
     (heap (update_many Scenario.rules
              (calls_for "AAPL" [(160, 1%Z); (158, 2%Z); (155, 3%Z)])
              Scenario.w1) 0%nat)
   = stop_loss
       (heap (world_of (PortfolioM.update_position Scenario.rules Scenario.w1
                          "AAPL" 160 1%Z)) 0%nat)) /\
  (quantity (heap Scenario.w4 3%nat) < 0 /\
   stop_le
     (stop_loss
        (heap (update_many Scenario.rules [("TSLA"%string, 190, 1%Z)]
                 Scenario.w4) 3%nat))
     (stop_loss (heap Scenario.w4 3%nat))).
Proof.
  assert (Hq : 0 < quantity (heap Scenario.w1 0%nat)) by reflexivity.
  assert (Hp : percentage Scenario.rules <= 1) by (vm_compute; discriminate).
  assert (Hf : falling 160 [(158, 2%Z); (155, 3%Z)])
    by (cbn; repeat split; vm_compute; discriminate).
  assert (Hs : quantity (heap Scenario.w4 3%nat) < 0) by reflexivity.
  split.
  - destruct (trailing_stop_monotone Scenario.rules Scenario.w1 0%nat)
      as [Hlong _].
    destruct (Hlong Hq) as [Hmono Hfall].
    split; [exact Hq|]. split; [exact Hp|]. split; [exact Hf|].
    split; [apply Hmono|].
    apply (Hfall Hp "AAPL"%string 160 1%Z _ Hf).
  - destruct (trailing_stop_monotone Scenario.rules Scenario.w4 3%nat)
      as [_ Hshort].
    split; [exact Hs | apply (Hshort Hs)].
Defined.

(** ** Portfolio valuation *)

Section Valuation.
Import PortfolioM.

Lemma accumulate_spec (h : ref -> Position) (current_prices : Py.dict Q)
    (items : Py.dict ref) (acc : Q) :
  accumulate h current_prices items acc
    == acc + snapshot_value h current_prices items.
Proof.
  unfold accumulate, snapshot_value, priced, Qsum, Py.mem. revert acc.
  induction items as [|[tkr r] rest IH]; intro acc; cbn.
  - ring.
  - rewrite IH.
    destruct (Py.get tkr current_prices) as [price|] eqn:E; cbn;
      rewrite ?E; ring.
Qed.

Lemma snapshot_value_unpriced (h : ref -> Position)
    (current_prices : Py.dict Q) (items : Py.dict ref) :
  (forall tkr r, In (tkr, r) items -> Py.get tkr current_prices = None) ->
  priced current_prices items = [].
Proof.
  intro H. unfold priced.
  induction items as [|[tkr r] rest IH]; cbn; [reflexivity|].
  unfold Py.mem. rewrite (H tkr r) by (now left).
  apply IH. intros tkr' r' Hin. apply (H tkr' r'). now right.
Qed.

Variable R : ExitRules.

Lemma update_position_returns (w : World) (tkr : string) (p : Q)
    (t : Py.timestamp) :
  (forall r, Py.get tkr (positions (self w)) = Some r ->
             ~ entry_price (heap w r) == 0) ->
  exists w', update_position R w tkr p t = Returned w'.
Proof.
  intro H.
  destruct (Py.get tkr (positions (self w))) as [r|] eqn:G.
  - specialize (H r eq_refl).
    rewrite (update_position_held R w tkr r p t G H).
    destruct (close_position_held w tkr r p t G H) as [wc [Hc _]].
    destruct (stop_loss_triggered (heap w r) p); [now exists wc|].
    destruct (take_profit_triggered (heap w r) p); [now exists wc|].
    eexists. reflexivity.
  - exists w. unfold update_position. now rewrite G.
Qed.

(** [update_position] never touches the equity curve and only ever
    removes its own ticker from the open positions. *)
Lemma update_position_frame (w : World) (tkr : string) (p : Q)
    (t : Py.timestamp) :
  let w' := world_of (update_position R w tkr p t) in
  equity_curve (self w') = equity_curve (self w) /\
  (forall k r, Py.get k (positions (self w')) = Some r ->
               Py.get k (positions (self w)) = Some r).
Proof.
  unfold update_position.
  destruct (Py.get tkr (positions (self w))) as [r|] eqn:G; cbn; [|tauto].
  destruct (Py.truediv p (entry_price (heap w r))); cbn; [|tauto].
  assert (Hclose :
    equity_curve (self (world_of (close_position w tkr p t)))
      = equity_curve (self w) /\
    (forall k r0,
       Py.get k (positions (self (world_of (close_position w tkr p t))))
         = Some r0 ->
       Py.get k (positions (self w)) = Some r0)).
  { unfold close_position. rewrite G.
    destruct (PositionM.close (heap w r) p t); cbn; [|tauto].
    split; [reflexivity|]. intros k r0 Hk.
    destruct (String.eqb tkr k) eqn:E.
    - apply String.eqb_eq in E. subst k. rewrite get_del_same in Hk.
      discriminate.
    - apply String.eqb_neq in E. now rewrite (get_del_other _ _ _ E) in Hk. }
  destruct (stop_loss_triggered (heap w r) p); [exact Hclose|].
  destruct (take_profit_triggered (heap w r) p); [exact Hclose|].
  cbn. rewrite trailing_stop_ledger. tauto.
Qed.

Lemma update_each_returns (current_prices : Py.dict Q) (t : Py.timestamp)
    (tickers : list string) (w : World) :
  (forall tkr r,
     Py.get tkr (positions (self w)) = Some r ->
     Py.mem tkr current_prices = true ->
     ~ entry_price (heap w r) == 0) ->
  exists w',
    update_each R tickers current_prices t w = Returned w' /\
    equity_curve (self w') = equity_curve (self w).
Proof.
  revert w. induction tickers as [|tkr rest IH]; intros w H; cbn.
  - now exists w.
  - destruct (Py.get tkr current_prices) as [price|] eqn:GP; [|now apply IH].
    assert (Hm : Py.mem tkr current_prices = true)
      by (unfold Py.mem; now rewrite GP).
    destruct (update_position_returns w tkr price t) as [w1 Hw1].
    { intros r G. exact (H tkr r G Hm). }
    pose proof (update_position_frame w tkr price t) as [Heq Hsub].
    rewrite Hw1 in *. cbn in Heq, Hsub.
    destruct (IH w1) as [w' [Hw' Heq']].
    { intros k r G Hk.
      pose proof (update_position_object R w tkr price t r) as [Hterms _].
      rewrite Hw1 in Hterms. cbn in Hterms.
      destruct Hterms as [_ [_ [He _]]]. rewrite He.
      exact (H k r (Hsub k r G) Hk). }
    exists w'. split; [exact Hw'|]. congruence.
Qed.

(** C9: the portfolio value is the cash plus the sum of
    [quantity * price] over the open positions whose ticker is in the
    snapshot; open positions without a price add nothing, so a snapshot
    that prices none of them values the portfolio at its cash.  An
    [update_portfolio] call on open positions with nonzero entry prices
    returns and appends exactly one equity-curve sample, whose value is
    that sum for the positions still open after the exit checks. *)
Theorem valuation_skips_unpriced (w : World) (current_prices : Py.dict Q)
    (t : Py.timestamp) :
  get_portfolio_value w current_prices
    == cash (self w)
       + snapshot_value (heap w) current_prices (positions (self w)) /\
  ((forall tkr r, In (tkr, r) (positions (self w)) ->
                  Py.get tkr current_prices = None) ->
   get_portfolio_value w current_prices == cash (self w)) /\
  ((forall tkr r,
      Py.get tkr (positions (self w)) = Some r ->
      Py.mem tkr current_prices = true ->
      ~ entry_price (heap w r) == 0) ->
   exists w' value,
     update_portfolio R w current_prices t = Returned w' /\
     equity_curve (self w') =
       equity_curve (self w) ++
       [ {| es_timestamp := t; es_portfolio_value := value;
            es_cash := cash (self w') |} ] /\
     value == cash (self w')
              + snapshot_value (heap w') current_prices
                  (positions (self w'))).
Proof.
  split; [|split].
  - apply accumulate_spec.
  - intro H. unfold get_portfolio_value. rewrite accumulate_spec.
    unfold snapshot_value.
    rewrite (snapshot_value_unpriced (heap w) _ _ H). cbn. ring.
  - intro H. unfold update_portfolio.
    destruct (update_each_returns current_prices t
                (Py.keys (positions (self w))) w H) as [w1 [Hw1 Heq]].
    rewrite Hw1.
    eexists. eexists. split; [reflexivity|]. cbn.
    split; [now rewrite Heq|]. apply accumulate_spec.
Qed.

End Valuation.

Lemma valuation_skips_unpriced_witness :
  (forall tkr r,
     Py.get tkr (positions (self Scenario.w5)) = Some r ->
     Py.mem tkr Scenario.aapl_only = true ->
     ~ entry_price (heap Scenario.w5 r) == 0) /\
  (forall tkr r, In (tkr, r) (positions (self Scenario.w5)) ->
                 Py.get tkr [] = @None Q) /\
  PortfolioM.get_portfolio_value Scenario.w5 [] == cash (self Scenario.w5) /\
  exists w' value,
    PortfolioM.update_portfolio Scenario.rules Scenario.w5
      Scenario.aapl_only 5%Z = Returned w' /\
    equity_curve (self w') =
      equity_curve (self Scenario.w5) ++
      [ {| es_timestamp := 5%Z; es_portfolio_value := value;
           es_cash := cash (self w') |} ] /\
    value == cash (self w')
             + snapshot_value (heap w') Scenario.aapl_only
                 (positions (self w')).
Proof.
  assert (H1 : forall tkr r,
             Py.get tkr (positions (self Scenario.w5)) = Some r ->
             Py.mem tkr Scenario.aapl_only = true ->
             ~ entry_price (heap Scenario.w5 r) == 0).
  { intros tkr r G _. cbn in G.
    destruct (String.eqb tkr "AAPL");
      [|destruct (String.eqb tkr "MSFT"); [|discriminate]];
      injection G as <-; vm_compute; discriminate. }
  assert (H2 : forall tkr r, In (tkr, r) (positions (self Scenario.w5)) ->
                             Py.get tkr [] = @None Q)
    by reflexivity.
  split; [exact H1|]. split; [exact H2|].
  destruct (valuation_skips_unpriced Scenario.rules Scenario.w5 [] 5%Z)
    as [_ [Hcash _]].
  destruct (valuation_skips_unpriced Scenario.rules Scenario.w5
              Scenario.aapl_only 5%Z) as [_ [_ Hupd]].
  split; [exact (Hcash H2) | exact (Hupd H1)].
Defined.

(** ** Cash conservation *)

Section Conservation.
Import PortfolioM.

Lemma Qsum_app (l1 l2 : list Q) : Qsum (l1 ++ l2) == Qsum l1 + Qsum l2.
Proof.
  unfold Qsum. induction l1 as [|x l1 IH]; cbn; [ring|]. rewrite IH. ring.
Qed.

Lemma del_absent {V} (k : string) (d : Py.dict V) :
  ~ In k (Py.keys d) -> Py.del k d = d.
Proof.
  unfold Py.del.
  induction d as [|[k' v] d IH]; cbn; [reflexivity|].
  intro H. destruct (String.eqb k k') eqn:E.
  - apply String.eqb_eq in E. subst. tauto.
  - cbn. f_equal. apply IH. tauto.
Qed.

Lemma in_del {V} (k k' : string) (v : V) (d : Py.dict V) :
  In (k', v) (Py.del k d) -> In (k', v) d /\ k' <> k.
Proof.
  unfold Py.del. intro H. apply filter_In in H. destruct H as [H1 H2].
  split; [exact H1|]. cbn in H2. apply negb_true_iff in H2.
  apply String.eqb_neq in H2. congruence.
Qed.








End Conservation.



(** ** The bound on the position size *)

(** C8: for a risk manager with a nonnegative risk budget, the size is 0
    when the confidence is at or below the floor, when the price is not
    positive and when the confidence is outside 0..100; and for every
    input the notional [size * current_price] is at most
    [max_risk_percent * portfolio_equity]. *)
Theorem position_size_bounded (rm : RiskManager) (tkr : string)
    (signal_direction : Z) (confidence current_price : Q) :
  0 <= max_risk_percent rm * portfolio_equity rm ->
  let size :=
    calculate_position_size rm tkr signal_direction confidence current_price in
  (confidence <= confidence_floor rm -> size = 0) /\
  (current_price <= 0 -> size = 0) /\
  (confidence < 0 \/ 100 < confidence -> size = 0) /\
  size * current_price <= max_risk_percent rm * portfolio_equity rm.
Proof.
  intros Hb size. subst size. unfold calculate_position_size.
  destruct (Qle_bool current_price 0) eqn:EP.
  { repeat split; try reflexivity. now rewrite Qmult_0_l. }
  destruct (Py.ltb confidence 0 || Py.ltb 100 confidence) eqn:ER.
  { repeat split; try reflexivity. now rewrite Qmult_0_l. }
  destruct (Qle_bool confidence (confidence_floor rm)) eqn:EF.
  { repeat split; try reflexivity. now rewrite Qmult_0_l. }
  apply orb_false_iff in ER. destruct ER as [E0 E100].
  apply ltb_false in E0. apply ltb_false in E100.
  assert (Hp : 0 < current_price).
  { apply Qnot_le_lt. intro H. apply Qle_bool_iff in H. congruence. }
  split; [|split; [|split]].
  - intro H. apply Qle_bool_iff in H. congruence.
  - intro H. exfalso. apply (Qlt_not_le _ _ Hp H).
  - intros [H|H]; exfalso;
      [apply (Qlt_not_le _ _ H E0) | apply (Qlt_not_le _ _ H E100)].
  - set (b := max_risk_percent rm * portfolio_equity rm) in *.
    assert (Hne : ~ current_price == 0).
    { intro H. rewrite H in Hp. apply (Qlt_irrefl _ Hp). }
    setoid_replace (b * (confidence / 100) / current_price * current_price)
      with (b * (confidence / 100)) by (field; exact Hne).
    assert (Hk : confidence / 100 <= 1).
    { apply Qle_shift_div_r; [reflexivity|]. now rewrite Qmult_1_l. }
    setoid_replace (b * (confidence / 100)) with (confidence / 100 * b)
      by ring.
    setoid_replace b with (1 * b) at 2 by ring.
    apply Qmult_le_compat_r; assumption.
Qed.

Lemma position_size_bounded_witness :
  let rm := {| max_risk_percent := 0.02; confidence_floor := 60;
               portfolio_equity := 100000 |} in
  0 <= max_risk_percent rm * portfolio_equity rm /\
  calculate_position_size rm "AAPL" 1%Z 75.5 175.25 * 175.25
    <= max_risk_percent rm * portfolio_equity rm /\
  calculate_position_size rm "AAPL" 1%Z 60 175.25 = 0.
Proof.
  intro rm.
  assert (Hb : 0 <= max_risk_percent rm * portfolio_equity rm)
    by (vm_compute; discriminate).
  split; [exact Hb|].
  destruct (position_size_bounded rm "AAPL" 1%Z 75.5 175.25 Hb)
    as [_ [_ [_ Hbound]]].
  destruct (position_size_bounded rm "AAPL" 1%Z 60 175.25 Hb)
    as [Hfloor _].
  split; [exact Hbound|].
  apply Hfloor. vm_compute. discriminate.
Defined.

(** ** Further properties of positions and exit triggers *)

(** X1: closing an object again starts from its entry price: the result of
    a close does not depend on an earlier close of the same object,
    whether that one completed or raised; pnl is never accumulated. *)
Theorem close_again_forgets (p : Position) (e1 e2 : Q)
    (t1 t2 : Py.timestamp) :
  let after :=
    match PositionM.close p e1 t1 with
    | PositionM.Done p1 => p1
    | PositionM.Fail _ p1 => p1
    end in
  PositionM.close after e2 t2 = PositionM.close p e2 t2.
Proof.
  unfold PositionM.close, Py.truediv.
  destruct (Qeq_bool (entry_price p) 0) eqn:E; cbn; rewrite E; reflexivity.
Qed.

Section MoreTriggers.
Import PortfolioM.

Lemma stop_loss_triggered_short (position : Position) (p S : Q) :
  quantity position < 0 -> stop_loss position = Some S ->
  (stop_loss_triggered position p = true <-> S <= p).
Proof.
  intros Hq HS. unfold stop_loss_triggered. rewrite HS.
  assert (H1 : Py.ltb 0 (quantity position) = false)
    by (apply ltb_false; now apply Qlt_le_weak).
  assert (H2 : Py.ltb (quantity position) 0 = true) by now apply ltb_true.
  rewrite H1, H2. cbn. apply Qle_bool_iff.
Qed.

Lemma take_profit_triggered_short (position : Position) (p : Q) :
  quantity position < 0 ->
  (take_profit_triggered position p = true <->
   exists T, take_profit position = Some T /\ p <= T).
Proof.
  intros Hq. unfold take_profit_triggered.
  assert (H1 : Py.ltb 0 (quantity position) = false)
    by (apply ltb_false; now apply Qlt_le_weak).
  assert (H2 : Py.ltb (quantity position) 0 = true) by now apply ltb_true.
  destruct (take_profit position) as [T|].
  - rewrite H1, H2. cbn. rewrite Qle_bool_iff.
    split; [intro H; now exists T | intros [T' [[= <-] H]]; exact H].
  - split; [discriminate | intros [T [[=] _]]].
Qed.

Lemma triggers_zero_quantity (position : Position) (p : Q) :
  quantity position == 0 ->
  stop_loss_triggered position p = false /\
  take_profit_triggered position p = false.
Proof.
  intro Hq.
  assert (H1 : Py.ltb 0 (quantity position) = false)
    by (apply ltb_false; rewrite Hq; apply Qle_refl).
  assert (H2 : Py.ltb (quantity position) 0 = false)
    by (apply ltb_false; rewrite Hq; apply Qle_refl).
  unfold stop_loss_triggered, take_profit_triggered.
  destruct (stop_loss position), (take_profit position);
    rewrite ?H1, ?H2; auto.
Qed.

Variable R : ExitRules.

(** X2: a short position with a nonzero entry price and stop [S] is closed
    by the call exactly when the price is at or above the stop or at or
    below its take-profit target. *)
Theorem short_position_closed_iff (w : World) (tkr : string) (r : ref)
    (p S : Q) (t : Py.timestamp) :
  Py.get tkr (positions (self w)) = Some r ->
  ~ entry_price (heap w r) == 0 ->
  quantity (heap w r) < 0 ->
  stop_loss (heap w r) = Some S ->
  exists w',
    update_position R w tkr p t = Returned w' /\
    (Py.get tkr (positions (self w')) = None <->
     S <= p \/ exists T, take_profit (heap w r) = Some T /\ p <= T) /\
    (Py.get tkr (positions (self w')) = None ->
     close_position w tkr p t = Returned w').
Proof.
  intros G Hn Hq HS.
  rewrite (update_position_held R w tkr r p t G Hn).
  pose proof (stop_loss_triggered_short (heap w r) p S Hq HS) as Hstop.
  pose proof (take_profit_triggered_short (heap w r) p Hq) as Htp.
  destruct (close_position_held w tkr r p t G Hn)
    as [wc [Hc [Hgone _]]].
  destruct (stop_loss_triggered (heap w r) p) eqn:E1;
    [|destruct (take_profit_triggered (heap w r) p) eqn:E2].
  - exists wc. split; [exact Hc|]. split; [|intros _; exact Hc].
    split; [intros _; left; now apply Hstop | intros _; exact Hgone].
  - exists wc. split; [exact Hc|]. split; [|intros _; exact Hc].
    split; [intros _; right; now apply Htp | intros _; exact Hgone].
  - exists (trailing_stop R w r p). split; [reflexivity|].
    rewrite trailing_stop_ledger. split.
    + split.
      * intro H. rewrite G in H. discriminate.
      * intros [HpS|HT]; [apply Hstop in HpS | apply Htp in HT]; discriminate.
    + intro H. rewrite G in H. discriminate.
Qed.

(** X3: a position of quantity zero is never closed by [update_position],
    whatever its stop, its target and the price: the call returns and
    leaves the ledger as it was. *)
Theorem zero_quantity_never_exits (w : World) (tkr : string) (r : ref)
    (p : Q) (t : Py.timestamp) :
  Py.get tkr (positions (self w)) = Some r ->
  ~ entry_price (heap w r) == 0 ->
  quantity (heap w r) == 0 ->
  exists w',
    update_position R w tkr p t = Returned w' /\
    self w' = self w /\
    status (heap w' r) = status (heap w r).
Proof.
  intros G Hn Hq.
  rewrite (update_position_held R w tkr r p t G Hn).
  destruct (triggers_zero_quantity (heap w r) p Hq) as [-> ->].
  exists (trailing_stop R w r p). split; [reflexivity|].
  split; [apply trailing_stop_ledger|].
  destruct (update_position_object R w tkr p t r) as [_ _].
  unfold trailing_stop.
  destruct (trailing R); [|reflexivity].
  destruct (stop_loss (heap w r)); [|reflexivity].
  destruct (Py.ltb 0 (quantity (heap w r)));
    match goal with |- context [if ?b then _ else _] => destruct b end;
    cbn; rewrite ?store_same; reflexivity.
Qed.

End MoreTriggers.

Lemma short_position_closed_iff_witness :
  Py.get "TSLA" (positions (self Desk.w3)) = Some 1%nat /\
  ~ entry_price (heap Desk.w3 1%nat) == 0 /\
  quantity (heap Desk.w3 1%nat) < 0 /\
  stop_loss (heap Desk.w3 1%nat) = Some 210 /\
  exists w',
    PortfolioM.update_position Desk.rules Desk.w3 "TSLA" 175 1%Z
      = Returned w' /\
    Py.get "TSLA" (positions (self w')) = None.
Proof.
  assert (G : Py.get "TSLA" (positions (self Desk.w3)) = Some 1%nat)
    by reflexivity.
  assert (Hn : ~ entry_price (heap Desk.w3 1%nat) == 0)
    by (vm_compute; discriminate).
  assert (Hq : quantity (heap Desk.w3 1%nat) < 0) by reflexivity.
  assert (HS : stop_loss (heap Desk.w3 1%nat) = Some 210) by reflexivity.
  split; [exact G|]. split; [exact Hn|]. split; [exact Hq|].
  split; [exact HS|].
  destruct (short_position_closed_iff Desk.rules Desk.w3 "TSLA" 1%nat
              175 210 1%Z G Hn Hq HS) as [w' [Hu [Hiff _]]].
  exists w'. split; [exact Hu|].
  apply Hiff. right. exists 180. split; [reflexivity|].
  vm_compute. discriminate.
Defined.

Lemma zero_quantity_never_exits_witness :
  Py.get "SPY" (positions (self Desk.w3)) = Some 2%nat /\
  ~ entry_price (heap Desk.w3 2%nat) == 0 /\
  quantity (heap Desk.w3 2%nat) == 0 /\
  exists w',
    PortfolioM.update_position Desk.rules Desk.w3 "SPY" 380 1%Z
      = Returned w' /\
    self w' = self Desk.w3 /\
    status (heap w' 2%nat) = status (heap Desk.w3 2%nat).
Proof.
  assert (G : Py.get "SPY" (positions (self Desk.w3)) = Some 2%nat)
    by reflexivity.
  assert (Hn : ~ entry_price (heap Desk.w3 2%nat) == 0)
    by (vm_compute; discriminate).
  assert (Hq : quantity (heap Desk.w3 2%nat) == 0) by reflexivity.
  split; [exact G|]. split; [exact Hn|]. split; [exact Hq|].
  exact (zero_quantity_never_exits Desk.rules Desk.w3 "SPY" 2%nat 380 1%Z
           G Hn Hq).
Defined.

(** ** The trailing stop at one price *)

Lemma below_price (p pct : Q) : 0 < pct -> 0 < p -> p * (1 - pct) < p.
Proof.
  intros Hpct Hp. pose proof (Qmult_lt_0_compat _ _ Hp Hpct) as H.
  setoid_replace (p * (1 - pct)) with (p - p * pct) by ring. lra.
Qed.

Lemma above_price (p pct : Q) : 0 < pct -> 0 < p -> p < p * (1 + pct).
Proof.
  intros Hpct Hp. pose proof (Qmult_lt_0_compat _ _ Hp Hpct) as H.
  setoid_replace (p * (1 + pct)) with (p + p * pct) by ring. lra.
Qed.

Lemma Qle_bool_false (x y : Q) : Qle_bool x y = false <-> y < x.
Proof.
  split; intro H.
  - apply Qnot_le_lt. intro Hle. apply Qle_bool_iff in Hle. congruence.
  - destruct (Qle_bool x y) eqn:E; [|reflexivity].
    apply Qle_bool_iff in E. exfalso. apply (Qlt_not_le _ _ H E).
Qed.

Section OnePrice.
Import PortfolioM.
Variable R : ExitRules.

(** X4: when neither exit fires on a long position and trailing is on, the
    stop after the call is the larger of the old stop and
    [p * (1 - percentage)]; for a positive percentage and price it stays
    strictly below the price. *)
Theorem trailing_stop_long_value (w : World) (tkr : string) (r : ref)
    (p S : Q) (t : Py.timestamp) :
  Py.get tkr (positions (self w)) = Some r ->
  ~ entry_price (heap w r) == 0 ->
  0 < quantity (heap w r) ->
  stop_loss (heap w r) = Some S ->
  trailing R = true ->
  S < p ->
  (forall T, take_profit (heap w r) = Some T -> p < T) ->
  exists w' S',
    update_position R w tkr p t = Returned w' /\
    self w' = self w /\
    stop_loss (heap w' r) = Some S' /\
    S <= S' /\ p * (1 - percentage R) <= S' /\
    (S' = S \/ S' = p * (1 - percentage R)) /\
    (0 < percentage R -> 0 < p -> S' < p).
Proof.
  intros G Hn Hq HS HT Hlt Htp.
  rewrite (update_position_held R w tkr r p t G Hn).
  assert (E1 : stop_loss_triggered (heap w r) p = false).
  { destruct (stop_loss_triggered (heap w r) p) eqn:E; [|reflexivity].
    apply (stop_loss_triggered_long _ p S Hq HS) in E.
    exfalso. apply (Qlt_not_le _ _ Hlt E). }
  assert (E2 : take_profit_triggered (heap w r) p = false).
  { destruct (take_profit_triggered (heap w r) p) eqn:E; [|reflexivity].
    apply (take_profit_triggered_long _ p Hq) in E.
    destruct E as [T [HT1 HT2]]. exfalso.
    apply (Qlt_not_le _ _ (Htp T HT1) HT2). }
  rewrite E1, E2. exists (trailing_stop R w r p).
  unfold trailing_stop. rewrite HT, HS.
  apply ltb_true in Hq. rewrite Hq.
  destruct (Py.ltb S (p * (1 - percentage R))) eqn:EN.
  - exists (p * (1 - percentage R)). cbn. rewrite store_same. cbn.
    apply ltb_true in EN.
    repeat split; auto using Qle_refl, Qlt_le_weak.
    apply below_price.
  - exists S. apply ltb_false in EN.
    repeat split; auto using Qle_refl.
Qed.

Lemma trailing_stop_settles (w : World) (tkr : string) (r : ref) (p : Q) :
  0 < percentage R -> 0 < p ->
  stop_loss_triggered (heap w r) p = false ->
  take_profit_triggered (heap w r) p = false ->
  let w1 := trailing_stop R w r p in
  stop_loss_triggered (heap w1 r) p = false /\
  take_profit_triggered (heap w1 r) p = false /\
  trailing_stop R w1 r p = w1 /\
  entry_price (heap w1 r) = entry_price (heap w r).
Proof.
  intros Hpct Hp E1 E2 w1.
  assert (Hsame : trailing_stop R w r p = w ->
            stop_loss_triggered (heap w1 r) p = false /\
            take_profit_triggered (heap w1 r) p = false /\
            trailing_stop R w1 r p = w1 /\
            entry_price (heap w1 r) = entry_price (heap w r)).
  { intro H. subst w1. rewrite H. auto. }
  assert (EC : forall c, Py.ltb c c = false)
    by (intro c; apply ltb_false; apply Qle_refl).
  assert (Hmoved : forall c,
            trailing_stop R w r p
              = {| heap := store (heap w) r
                             (PositionM.update_stop_loss (heap w r) c);
                   self := self w |} ->
            trailing R = true ->
            (Py.ltb 0 (quantity (heap w r)) = true ->
             c = p * (1 - percentage R)) ->
            (Py.ltb 0 (quantity (heap w r)) = false ->
             c = p * (1 + percentage R)) ->
            stop_loss_triggered (heap w1 r) p = false /\
            take_profit_triggered (heap w1 r) p = false /\
            trailing_stop R w1 r p = w1 /\
            entry_price (heap w1 r) = entry_price (heap w r)).
  { intros c H HT Hlong Hshort. subst w1. rewrite H. clear H Hsame.
    unfold trailing_stop, stop_loss_triggered, take_profit_triggered in *.
    cbn. rewrite store_same. cbn. rewrite HT.
    destruct (Py.ltb 0 (quantity (heap w r))) eqn:EQ.
    - rewrite (Hlong eq_refl) in *.
      assert (EL : Qle_bool p (p * (1 - percentage R)) = false)
        by (apply Qle_bool_false; now apply below_price).
      assert (EZ : Py.ltb (quantity (heap w r)) 0 = false).
      { apply ltb_false. apply Qlt_le_weak. now apply ltb_true. }
      rewrite ?EL, ?EZ, ?EC in *. cbn in *. auto.
    - rewrite (Hshort eq_refl) in *.
      assert (EL : Qle_bool (p * (1 + percentage R)) p = false)
        by (apply Qle_bool_false; now apply above_price).
      rewrite ?EL, ?EC in *. cbn in *. rewrite ?andb_false_r. auto. }
  clearbody w1. revert Hsame Hmoved. unfold trailing_stop.
  destruct (trailing R); [|auto].
  destruct (stop_loss (heap w r)) as [S|]; [|auto].
  destruct (Py.ltb 0 (quantity (heap w r))).
  - destruct (Py.ltb S (p * (1 - percentage R))); [|auto].
    intros _ H. apply (H (p * (1 - percentage R))); auto. discriminate.
  - destruct (Py.ltb (p * (1 + percentage R)) S); [|auto].
    intros _ H. apply (H (p * (1 + percentage R))); auto. discriminate.
Qed.

(** X5: for a positive trailing percentage and a positive price, a call
    that returned has settled the position at that price: the same call
    again, at any time, returns the world unchanged. *)
Theorem update_position_idempotent (w w1 : World) (tkr : string) (p : Q)
    (t t' : Py.timestamp) :
  0 < percentage R -> 0 < p ->
  update_position R w tkr p t = Returned w1 ->
  update_position R w1 tkr p t' = Returned w1.
Proof.
  intros Hpct Hp Hret.
  destruct (Py.get tkr (positions (self w))) as [r|] eqn:G.
  - destruct (Qeq_dec (entry_price (heap w r)) 0) as [H0|Hn].
    { unfold update_position in Hret. rewrite G in Hret.
      rewrite (truediv_zero p _ H0) in Hret. discriminate. }
    rewrite (update_position_held R w tkr r p t G Hn) in Hret.
    destruct (close_position_held w tkr r p t G Hn) as [wc [Hc [Hgone _]]].
    assert (Hclosed : close_position w tkr p t = Returned w1 ->
                      update_position R w1 tkr p t' = Returned w1).
    { intro H. rewrite Hc in H. injection H as <-.
      unfold update_position. now rewrite Hgone. }
    destruct (stop_loss_triggered (heap w r) p) eqn:E1; [auto|].
    destruct (take_profit_triggered (heap w r) p) eqn:E2; [auto|].
    injection Hret as <-.
    destruct (trailing_stop_settles w tkr r p Hpct Hp E1 E2)
      as [E1' [E2' [Hfix He]]].
    rewrite (update_position_held R _ tkr r p t').
    + now rewrite E1', E2', Hfix.
    + now rewrite trailing_stop_ledger.
    + now rewrite He.
  - unfold update_position in *. rewrite G in Hret. injection Hret as <-.
    now rewrite G.
Qed.

End OnePrice.

Lemma trailing_stop_long_value_witness :
  Py.get "NVDA" (positions (self Desk.w3)) = Some 0%nat /\
  ~ entry_price (heap Desk.w3 0%nat) == 0 /\
  0 < quantity (heap Desk.w3 0%nat) /\
  stop_loss (heap Desk.w3 0%nat) = Some 90 /\
  trailing Desk.rules = true /\
  90 < 110 /\
  (forall T, take_profit (heap Desk.w3 0%nat) = Some T -> 110 < T) /\
  exists w' S',
    PortfolioM.update_position Desk.rules Desk.w3 "NVDA" 110 1%Z
      = Returned w' /\
    stop_loss (heap w' 0%nat) = Some S' /\
    90 <= S' /\ S' < 110.
Proof.
  assert (G : Py.get "NVDA" (positions (self Desk.w3)) = Some 0%nat)
    by reflexivity.
  assert (Hn : ~ entry_price (heap Desk.w3 0%nat) == 0)
    by (vm_compute; discriminate).
  assert (Hq : 0 < quantity (heap Desk.w3 0%nat)) by reflexivity.
  assert (HS : stop_loss (heap Desk.w3 0%nat) = Some 90) by reflexivity.
  assert (HT : trailing Desk.rules = true) by reflexivity.
  assert (Hlt : 90 < 110) by reflexivity.
  assert (Htp : forall T, take_profit (heap Desk.w3 0%nat) = Some T ->
                          110 < T)
    by (intros T [= <-]; reflexivity).
  split; [exact G|]. split; [exact Hn|]. split; [exact Hq|].
  split; [exact HS|]. split; [exact HT|]. split; [exact Hlt|].
  split; [exact Htp|].
  destruct (trailing_stop_long_value Desk.rules Desk.w3 "NVDA" 0%nat 110 90
              1%Z G Hn Hq HS HT Hlt Htp)
    as [w' [S' [Hu [_ [Hs [Hle [_ [_ Hbelow]]]]]]]].
  exists w', S'. split; [exact Hu|]. split; [exact Hs|].
  split; [exact Hle|]. apply Hbelow; reflexivity.
Defined.

Lemma update_position_idempotent_witness :
  0 < percentage Desk.rules /\ 0 < 110 /\
  PortfolioM.update_position Desk.rules Desk.w3 "NVDA" 110 1%Z
    = Returned
        (world_of (PortfolioM.update_position Desk.rules Desk.w3
                     "NVDA" 110 1%Z)) /\
  PortfolioM.update_position Desk.rules
    (world_of (PortfolioM.update_position Desk.rules Desk.w3 "NVDA" 110 1%Z))
    "NVDA" 110 2%Z
  = Returned
      (world_of (PortfolioM.update_position Desk.rules Desk.w3
                   "NVDA" 110 1%Z)).
Proof.
  assert (Hpct : 0 < percentage Desk.rules) by reflexivity.
  assert (Hp : 0 < 110) by reflexivity.
  assert (Hret :
    PortfolioM.update_position Desk.rules Desk.w3 "NVDA" 110 1%Z
    = Returned
        (world_of (PortfolioM.update_position Desk.rules Desk.w3
                     "NVDA" 110 1%Z))) by reflexivity.
  split; [exact Hpct|]. split; [exact Hp|]. split; [exact Hret|].
  exact (update_position_idempotent Desk.rules _ _ "NVDA" 110 1%Z 2%Z
           Hpct Hp Hret).
Defined.

(** ** Opening, closing and valuing *)


Section RoundTrip.
Import PortfolioM.



Variable R : ExitRules.

Lemma update_each_unpriced (current_prices : Py.dict Q) (t : Py.timestamp)
    (tickers : list string) (w : World) :
  (forall k, In k tickers -> Py.get k current_prices = None) ->
  update_each R tickers current_prices t w = Returned w.
Proof.
  induction tickers as [|k rest IH]; intro H; cbn; [reflexivity|].
  rewrite (H k) by (now left). apply IH. intros k' Hk'. apply H. now right.
Qed.

Lemma accumulate_unpriced (h : ref -> Position) (current_prices : Py.dict Q)
    (items : Py.dict ref) (acc : Q) :
  (forall k r, In (k, r) items -> Py.get k current_prices = None) ->
  accumulate h current_prices items acc = acc.
Proof.
  unfold accumulate. revert acc.
  induction items as [|[k r] rest IH]; intros acc H; cbn; [reflexivity|].
  rewrite (H k r) by (now left). apply IH. intros k' r' Hin.
  apply (H k' r'). now right.
Qed.

(** X8: a snapshot that prices none of the held tickers (the empty snapshot
    among them) makes [update_portfolio] return without touching any
    object, position, cash or transaction, even where an entry price is
    zero; it appends one sample whose value is the cash. *)
Theorem unpriced_snapshot_only_samples (w : World)
    (current_prices : Py.dict Q) (t : Py.timestamp) :
  (forall k r, In (k, r) (positions (self w)) ->
               Py.get k current_prices = None) ->
  exists w',
    update_portfolio R w current_prices t = Returned w' /\
    heap w' = heap w /\
    positions (self w') = positions (self w) /\
    closed_positions (self w') = closed_positions (self w) /\
    transactions (self w') = transactions (self w) /\
    cash (self w') = cash (self w) /\
    equity_curve (self w') =
      equity_curve (self w) ++
      [ {| es_timestamp := t; es_portfolio_value := cash (self w);
           es_cash := cash (self w) |} ].
Proof.
  intro H. unfold update_portfolio.
  rewrite update_each_unpriced.
  - eexists. split; [reflexivity|]. cbn.
    rewrite (accumulate_unpriced _ _ _ _ H). repeat split.
  - intros k Hk. unfold Py.keys in Hk. apply in_map_iff in Hk.
    destruct Hk as [[k' r] [<- Hin]]. exact (H k' r Hin).
Qed.

Lemma update_position_cases (w : World) (tkr : string) (p : Q)
    (t : Py.timestamp) :
  let w' := world_of (update_position R w tkr p t) in
  w' = w \/
  (exists r, Py.get tkr (positions (self w)) = Some r /\
             ~ entry_price (heap w r) == 0 /\
             close_position w tkr p t = Returned w') \/
  (exists r, Py.get tkr (positions (self w)) = Some r /\
             w' = trailing_stop R w r p).
Proof.
  destruct (Py.get tkr (positions (self w))) as [r|] eqn:G.
  - destruct (Qeq_dec (entry_price (heap w r)) 0) as [H0|Hn].
    + left. unfold update_position. rewrite G.
      now rewrite (truediv_zero p _ H0).
    + rewrite (update_position_held R w tkr r p t G Hn).
      destruct (close_position_held w tkr r p t G Hn) as [wc [Hc _]].
      destruct (stop_loss_triggered (heap w r) p);
        [right; left; exists r; rewrite Hc; auto|].
      destruct (take_profit_triggered (heap w r) p);
        [right; left; exists r; rewrite Hc; auto|].
      right. right. exists r. auto.
  - left. unfold update_position. now rewrite G.
Qed.

Lemma update_position_other_keys (w : World) (tkr k : string) (p : Q)
    (t : Py.timestamp) :
  k <> tkr ->
  Py.get k (positions (self (world_of (update_position R w tkr p t))))
    = Py.get k (positions (self w)).
Proof.
  intro Hk.
  destruct (update_position_cases w tkr p t) as [H|[[r [G [Hn H]]]|[r [G H]]]].
  - now rewrite H.
  - apply (f_equal world_of) in H. cbn in H. rewrite <- H.
    unfold close_position. rewrite G.
    destruct (PositionM.close (heap w r) p t); cbn; [|reflexivity].
    apply get_del_other. congruence.
  - rewrite H. now rewrite trailing_stop_ledger.
Qed.

(** X9: [update_portfolio] leaves every ticker that the snapshot does not
    price filed as it was, open under the same object or absent. *)
Theorem unpriced_positions_stay (w : World) (current_prices : Py.dict Q)
    (t : Py.timestamp) (k : string) :
  Py.get k current_prices = None ->
  Py.get k (positions
              (self (world_of (update_portfolio R w current_prices t))))
    = Py.get k (positions (self w)).
Proof.
  intro Hk.
  assert (Heach : forall tickers w0,
             Py.get k (positions
                         (self (world_of
                                  (update_each R tickers current_prices t w0))))
               = Py.get k (positions (self w0))).
  { induction tickers as [|tkr rest IH]; intro w0; cbn; [reflexivity|].
    destruct (Py.get tkr current_prices) as [price|] eqn:GP; [|apply IH].
    assert (Hne : k <> tkr) by (intros ->; congruence).
    pose proof (update_position_other_keys w0 tkr k price t Hne) as Hstep.
    destruct (update_position R w0 tkr price t) as [w1|ex w1]; cbn in *.
    - now rewrite IH.
    - exact Hstep. }
  unfold update_portfolio.
  specialize (Heach (Py.keys (positions (self w))) w).
  destruct (update_each R (Py.keys (positions (self w))) current_prices t w);
    exact Heach.
Qed.

End RoundTrip.


Lemma unpriced_snapshot_only_samples_witness :
  (forall k r, In (k, r) (positions (self Desk.w3)) ->
               Py.get k [("AAPL"%string, 155)] = None) /\
  exists w',
    PortfolioM.update_portfolio Desk.rules Desk.w3 [("AAPL"%string, 155)] 7%Z
      = Returned w' /\
    positions (self w') = positions (self Desk.w3) /\
    equity_curve (self w') =
      [ {| es_timestamp := 7%Z; es_portfolio_value := cash (self Desk.w3);
           es_cash := cash (self Desk.w3) |} ].
Proof.
  assert (H : forall k r, In (k, r) (positions (self Desk.w3)) ->
                          Py.get k [("AAPL"%string, 155)] = None).
  { intros k r Hin. cbn in Hin.
    destruct Hin as [[= <- _]|[[= <- _]|[[= <- _]|[]]]]; reflexivity. }
  split; [exact H|].
  destruct (unpriced_snapshot_only_samples Desk.rules Desk.w3
              [("AAPL"%string, 155)] 7%Z H)
    as [w' [Hu [_ [Hpos [_ [_ [_ Heq]]]]]]].
  exists w'. split; [exact Hu|]. split; [exact Hpos | exact Heq].
Defined.

Lemma unpriced_positions_stay_witness :
  Py.get "SPY" Desk.snapshot = None /\
  Py.get "SPY"
    (positions
       (self (world_of (PortfolioM.update_portfolio Desk.rules Desk.w3
                          Desk.snapshot 2%Z))))
  = Some 2%nat.
Proof.
  assert (H : Py.get "SPY" Desk.snapshot = None) by reflexivity.
  split; [exact H|].
  exact (unpriced_positions_stay Desk.rules Desk.w3 Desk.snapshot 2%Z
           "SPY" H).
Defined.

(** ** Invariants over the whole interface *)

Section Interface.
Import PortfolioM.
Variable R : ExitRules.

Lemma same_books_refl (w : World) : same_books w w.
Proof.
  split; [reflexivity|]. intro r. split; [apply same_terms_refl|auto].
Qed.

Lemma trailing_stop_books (w : World) (r : ref) (p : Q) :
  same_books w (trailing_stop R w r p).
Proof.
  split; [apply trailing_stop_ledger|]. intro r0.
  unfold trailing_stop.
  destruct (trailing R); [|apply same_books_refl].
  destruct (stop_loss (heap w r)); [|apply same_books_refl].
  destruct (Py.ltb 0 (quantity (heap w r)));
    match goal with |- context [if ?b then _ else _] => destruct b end;
    try apply same_books_refl;
    cbn; (destruct (Nat.eq_dec r0 r) as [->|Hne];
          [rewrite store_same; cbn; repeat split
          |rewrite (store_other _ _ _ _ Hne); apply same_books_refl]).
Qed.

Lemma update_portfolio_shape (w : World) (current_prices : Py.dict Q)
    (t : Py.timestamp) :
  update_portfolio R w current_prices t =
    match update_each R (Py.keys (positions (self w))) current_prices t w with
    | Returned w' => Returned (with_sample w' current_prices t)
    | Raised e w' => Raised e w'
    end.
Proof.
  unfold update_portfolio.
  destruct (update_each R (Py.keys (positions (self w))) current_prices t w);
    reflexivity.
Qed.

(** A property of worlds that the three primitive steps keep is kept by
    every call that is not an addition. *)
Section Preserved.
Variable P : World -> Prop.
Hypothesis P_close :
  forall w tkr e t, P w -> P (world_of (close_position w tkr e t)).
Hypothesis P_books : forall w w', P w -> same_books w w' -> P w'.
Hypothesis P_sample : forall w prices t, P w -> P (with_sample w prices t).

Lemma update_position_preserves (w : World) (tkr : string) (p : Q)
    (t : Py.timestamp) :
  P w -> P (world_of (update_position R w tkr p t)).
Proof.
  intro H.
  destruct (update_position_cases R w tkr p t)
    as [E|[[r [G [Hn E]]]|[r [G E]]]].
  - now rewrite E.
  - apply (f_equal world_of) in E. cbn in E. rewrite <- E. now apply P_close.
  - rewrite E. apply (P_books w); [exact H | apply trailing_stop_books].
Qed.

Lemma update_each_preserves (current_prices : Py.dict Q) (t : Py.timestamp)
    (tickers : list string) (w : World) :
  P w -> P (world_of (update_each R tickers current_prices t w)).
Proof.
  revert w. induction tickers as [|tkr rest IH]; intros w H; cbn; [exact H|].
  destruct (Py.get tkr current_prices) as [price|]; [|now apply IH].
  pose proof (update_position_preserves w tkr price t H) as Hstep.
  destruct (update_position R w tkr price t) as [w1|ex w1]; cbn in *.
  - now apply IH.
  - exact Hstep.
Qed.

Lemma update_portfolio_preserves (w : World) (current_prices : Py.dict Q)
    (t : Py.timestamp) :
  P w -> P (world_of (update_portfolio R w current_prices t)).
Proof.
  intro H. rewrite update_portfolio_shape.
  pose proof (update_each_preserves current_prices t
                (Py.keys (positions (self w))) w H) as Heach.
  destruct (update_each R (Py.keys (positions (self w))) current_prices t w);
    cbn in *; [now apply P_sample | exact Heach].
Qed.

Lemma exec_call_preserves (side : World -> portfolio_call -> Prop) :
  (forall w position, P w -> side w (CallAdd position) ->
                      P (add_position w position)) ->
  forall w c, P w -> side w c -> P (exec_call R w c).
Proof.
  intros P_add w c H Hside. destruct c as [position|tkr e t|tkr p t|prices t];
    cbn.
  - now apply P_add.
  - now apply P_close.
  - now apply update_position_preserves.
  - now apply update_portfolio_preserves.
Qed.

End Preserved.

(** *** The cash against the transaction log *)

Lemma cash_logged_close (w : World) (tkr : string) (e : Q)
    (t : Py.timestamp) :
  cash_logged w -> cash_logged (world_of (close_position w tkr e t)).
Proof.
  unfold cash_logged, logged_cash_flow, close_position. intro H.
  destruct (Py.get tkr (positions (self w))) as [r|]; [|exact H].
  destruct (PositionM.close (heap w r) e t); cbn; [|exact H].
  rewrite map_app, Qsum_app, H. unfold signed_value, Qsum. cbn. ring.
Qed.

Lemma cash_logged_add (w : World) (position : ref) :
  cash_logged w -> cash_logged (add_position w position).
Proof.
  unfold cash_logged, logged_cash_flow, add_position. intro H. cbn.
  rewrite map_app, Qsum_app, H. unfold signed_value, Qsum. cbn. ring.
Qed.

Lemma cash_logged_books (w w' : World) :
  cash_logged w -> same_books w w' -> cash_logged w'.
Proof.
  unfold cash_logged, logged_cash_flow. intros H [Hs _]. now rewrite Hs.
Qed.

Lemma run_calls_initial_capital (calls : list portfolio_call) (w : World) :
  initial_capital (self (run_calls R w calls)) = initial_capital (self w).
Proof.
  revert w. induction calls as [|c rest IH]; intro w; cbn; [reflexivity|].
  rewrite IH.
  apply (exec_call_preserves
           (fun w' => initial_capital (self w') = initial_capital (self w))
           ) with (side := fun _ _ => True); auto.
  - intros w0 tkr e t H. rewrite <- H. unfold close_position.
    destruct (Py.get tkr (positions (self w0))) as [r|]; [|reflexivity].
    destruct (PositionM.close (heap w0 r) e t); reflexivity.
  - intros w0 w' H [Hs _]. now rewrite Hs.
Qed.

(** X10: after any sequence of calls of the four mutating methods on a fresh
    portfolio, duplicates, re-added objects and raising calls included,
    the cash is the initial capital minus the values of the "open"
    transactions plus the values of the "close" transactions. *)
Theorem cash_matches_transaction_log (h : ref -> Position) (capital : Q)
    (calls : list portfolio_call) :
  let w := run_calls R {| heap := h; self := PortfolioM.init capital |}
             calls in
  cash (self w) == capital + logged_cash_flow w.
Proof.
  cbn.
  assert (H : forall calls w, cash_logged w ->
                              cash_logged (run_calls R w calls)).
  { clear calls. induction calls as [|c rest IH]; intros w Hw; cbn;
      [exact Hw|].
    apply IH.
    apply (exec_call_preserves cash_logged) with (side := fun _ _ => True);
      auto using cash_logged_close, cash_logged_add.
    intros w0 w' H0 Hb. exact (cash_logged_books w0 w' H0 Hb). }
  specialize (H calls {| heap := h; self := PortfolioM.init capital |}).
  unfold cash_logged in H. rewrite run_calls_initial_capital in H.
  apply H. unfold logged_cash_flow, Qsum. cbn. ring.
Qed.

End Interface.

Section Filing.
Import PortfolioM.
Variable R : ExitRules.

Lemma in_set {V} (k k' : string) (v v' : V) (d : Py.dict V) :
  In (k', v') (Py.set k v d) -> In (k', v') d \/ (k' = k /\ v' = v).
Proof.
  induction d as [|[k1 v1] d IH]; cbn.
  - intros [[= <- <-]|[]]. now right.
  - destruct (String.eqb k k1) eqn:E.
    + apply String.eqb_eq in E. subst k1.
      intros [[= <- <-]|H]; [now right | left; now right].
    + intros [H|H]; [left; now left|].
      destruct (IH H) as [H'|H']; [left; now right | now right].
Qed.

Lemma filed_add (w : World) (position : ref) :
  filed w -> filed (add_position w position).
Proof.
  intros [Hkeys Htk Hclosed]. constructor; unfold add_position; cbn.
  - now apply keys_set.
  - intros k r Hin. apply in_set in Hin.
    destruct Hin as [Hin|[-> ->]]; auto.
  - exact Hclosed.
Qed.

Lemma filed_close (w : World) (tkr : string) (e : Q) (t : Py.timestamp) :
  filed w -> filed (world_of (close_position w tkr e t)).
Proof.
  intros [Hkeys Htk Hclosed]. unfold close_position.
  destruct (Py.get tkr (positions (self w))) as [r|] eqn:G; cbn;
    [|now constructor].
  pose proof (close_object (heap w r) e t) as Hobj.
  destruct (PositionM.close (heap w r) e t) as [p'|ex p']; cbn;
    destruct Hobj as [[Ht _] [_ [Hst _]]]; constructor; cbn.
  - now apply keys_del.
  - intros k x Hx. apply in_del in Hx. destruct Hx as [Hx _].
    destruct (Nat.eq_dec x r) as [->|Hne];
      [rewrite store_same, Ht | rewrite store_other by exact Hne]; auto.
  - intros x Hx. apply in_app_or in Hx.
    destruct (Nat.eq_dec x r) as [->|Hne];
      [now rewrite store_same | rewrite store_other by exact Hne].
    destruct Hx as [Hx|[<-|[]]]; [auto | congruence].
  - exact Hkeys.
  - intros k x Hx.
    destruct (Nat.eq_dec x r) as [->|Hne];
      [rewrite store_same, Ht | rewrite store_other by exact Hne]; auto.
  - intros x Hx.
    destruct (Nat.eq_dec x r) as [->|Hne];
      [rewrite store_same, Hst | rewrite store_other by exact Hne]; auto.
Qed.

Lemma filed_books (w w' : World) : filed w -> same_books w w' -> filed w'.
Proof.
  intros [Hkeys Htk Hclosed] [Hs Hobj]. constructor; rewrite Hs.
  - exact Hkeys.
  - intros k r Hin. destruct (Hobj r) as [[Ht _] _]. rewrite Ht. auto.
  - intros r Hin. destruct (Hobj r) as [_ [_ Hst]]. rewrite Hst. auto.
Qed.

Lemma filed_sample (w : World) (prices : Py.dict Q) (t : Py.timestamp) :
  filed w -> filed (with_sample w prices t).
Proof.
  intros [Hkeys Htk Hclosed]. constructor; cbn; auto.
Qed.

Lemma filed_exec (w : World) (c : portfolio_call) :
  filed w -> filed (exec_call R w c).
Proof.
  intro H.
  apply (exec_call_preserves R filed) with (side := fun _ _ => True);
    auto using filed_close, filed_add, filed_sample.
  intros w0 w' H0 Hb. exact (filed_books w0 w' H0 Hb).
Qed.

Lemma filed_reachable (h : ref -> Position) (capital : Q)
    (calls : list portfolio_call) :
  filed (run_calls R {| heap := h; self := PortfolioM.init capital |} calls).
Proof.
  assert (H : forall calls w, filed w -> filed (run_calls R w calls)).
  { clear calls. induction calls as [|c rest IH]; intros w Hw; cbn;
      [exact Hw|].
    apply IH. now apply filed_exec. }
  apply H. constructor; cbn; try (intros; contradiction). constructor.
Qed.

(** X11: after any sequence of calls on a fresh portfolio every open
    position is filed under the ticker of its own object, and every
    object in [closed_positions] has the status "closed". *)
Theorem books_stay_filed (h : ref -> Position) (capital : Q)
    (calls : list portfolio_call) :
  let w := run_calls R {| heap := h; self := PortfolioM.init capital |}
             calls in
  (forall k r, Py.get k (positions (self w)) = Some r ->
               ticker (heap w r) = k) /\
  (forall r, In r (closed_positions (self w)) ->
             status (heap w r) = "closed"%string).
Proof.
  cbn. destruct (filed_reachable h capital calls) as [_ Htk Hclosed].
  split; [|exact Hclosed].
  intros k r G. apply Htk. now apply get_some_in.
Qed.

End Filing.

Section AppendOnly.
Import PortfolioM.
Variable R : ExitRules.

Lemma extends_refl {A} (l : list A) : extends l l.
Proof. exists []. now rewrite app_nil_r. Qed.

Lemma extends_trans {A} (l1 l2 l3 : list A) :
  extends l1 l2 -> extends l2 l3 -> extends l1 l3.
Proof.
  intros [t1 ->] [t2 ->]. exists (t1 ++ t2). now rewrite app_assoc.
Qed.

Lemma extends_app {A} (l t : list A) : extends l (l ++ t).
Proof. now exists t. Qed.

Lemma logs_extend_exec (w0 w : World) (c : portfolio_call) :
  logs_extend w0 w -> logs_extend w0 (exec_call R w c).
Proof.
  intro H.
  apply (exec_call_preserves R (logs_extend w0)) with (side := fun _ _ => True);
    auto.
  - clear. intros w tkr e t [H1 [H2 H3]]. unfold logs_extend, close_position.
    destruct (Py.get tkr (positions (self w))) as [r|]; [|now split].
    destruct (PositionM.close (heap w r) e t); cbn; [|now split].
    repeat split; auto;
      eapply extends_trans; eauto using extends_app.
  - clear. intros w w' [H1 [H2 H3]] [Hs _]. unfold logs_extend.
    now rewrite Hs.
  - clear. intros w prices t [H1 [H2 H3]]. unfold logs_extend. cbn.
    repeat split; auto. eapply extends_trans; eauto using extends_app.
  - clear. intros w position [H1 [H2 H3]] _. unfold logs_extend. cbn.
    repeat split; auto. eapply extends_trans; eauto using extends_app.
Qed.

(** X12: the transaction log, the list of closed positions and the equity
    curve are append-only: whatever calls are made, what they held before
    is still there, in place, at their front. *)
Theorem logs_are_append_only (w : World) (calls : list portfolio_call) :
  let w' := run_calls R w calls in
  extends (transactions (self w)) (transactions (self w')) /\
  extends (closed_positions (self w)) (closed_positions (self w')) /\
  extends (equity_curve (self w)) (equity_curve (self w')).
Proof.
  cbn.
  assert (H : forall calls w1, logs_extend w w1 ->
                               logs_extend w (run_calls R w1 calls)).
  { clear calls. induction calls as [|c rest IH]; intros w1 Hw; cbn;
      [exact Hw|].
    apply IH. now apply logs_extend_exec. }
  apply (H calls w). repeat split; apply extends_refl.
Qed.

End AppendOnly.

Section LoggedPnl.
Import PortfolioM.
Variable R : ExitRules.







Lemma get_entry_prices (h : ref -> Position) (d : Py.dict ref) (k : string)
    (r : ref) :
  NoDup (Py.keys d) -> In (k, r) d ->
  Py.get k (map (fun item => (fst item, entry_price (h (snd item)))) d)
    = Some (entry_price (h r)).
Proof.
  induction d as [|[k1 r1] d IH]; cbn; [contradiction|].
  intros Hnd Hin. inversion Hnd as [|? ? Hnotin Hnd']; subst.
  destruct Hin as [[= <- <-]|Hin].
  - now rewrite String.eqb_refl.
  - destruct (String.eqb k k1) eqn:E; [|now apply IH].
    apply String.eqb_eq in E. subst k1. exfalso. apply Hnotin.
    unfold Py.keys. apply in_map_iff. now exists (k, r).
Qed.

Lemma Qsum_map_eq {A} (f g : A -> Q) (l : list A) :
  (forall x, In x l -> f x == g x) -> Qsum (map f l) == Qsum (map g l).
Proof.
  unfold Qsum. induction l as [|x l IH]; intro H; cbn; [reflexivity|].
  rewrite (H x) by (now left). rewrite IH; [reflexivity|].
  intros y Hy. apply H. now right.
Qed.

Lemma filter_all {A} (f : A -> bool) (l : list A) :
  (forall x, In x l -> f x = true) -> filter f l = l.
Proof.
  induction l as [|x l IH]; intro H; cbn; [reflexivity|].
  rewrite (H x) by (now left). f_equal. apply IH. intros y Hy.
  apply H. now right.
Qed.

Lemma value_at_entry (w : World) :
  NoDup (Py.keys (positions (self w))) ->
  get_portfolio_value w (entry_prices w) == cash (self w) + open_cost w.
Proof.
  intro Hnd. unfold get_portfolio_value. rewrite accumulate_spec.
  unfold snapshot_value, priced, open_cost, entry_prices.
  rewrite filter_all.
  - apply Qplus_comp; [reflexivity|]. apply Qsum_map_eq.
    intros [k r] Hin. cbn.
    rewrite (get_entry_prices (heap w) _ k r Hnd Hin). unfold cost. cbn. ring.
  - intros [k r] Hin. cbn. unfold Py.mem.
    now rewrite (get_entry_prices (heap w) _ k r Hnd Hin).
Qed.

(** X13: the valuation that [get_position_exposure] starts from, the
    portfolio valued at the entry prices of its own open positions, is the
    cash plus [entry_price * quantity] summed over the open positions. *)
Theorem entry_valuation_is_cash_plus_cost (w : World) :
  NoDup (Py.keys (positions (self w))) ->
  get_portfolio_value w (entry_prices w) == cash (self w) + open_cost w /\
  get_position_value w (entry_prices w) == open_cost w.
Proof.
  intro Hnd. split; [now apply value_at_entry|].
  pose proof (value_at_entry w Hnd) as H.
  unfold get_portfolio_value, get_position_value in *.
  rewrite accumulate_spec in H. rewrite accumulate_spec. lra.
Qed.


End LoggedPnl.

Section WithUpdates.
Import PortfolioM.
Variable R : ExitRules.






Lemma in_get {V} (k : string) (v : V) (d : Py.dict V) :
  NoDup (Py.keys d) -> In (k, v) d -> Py.get k d = Some v.
Proof.
  induction d as [|[k1 v1] d IH]; cbn; [contradiction|].
  intros Hnd Hin. inversion Hnd as [|? ? Hnotin Hnd']; subst.
  destruct Hin as [[= <- <-]|Hin]; [now rewrite String.eqb_refl|].
  destruct (String.eqb k k1) eqn:E; [|now apply IH].
  apply String.eqb_eq in E. subst k1. exfalso. apply Hnotin.
  unfold Py.keys. apply in_map_iff. now exists (k, v).
Qed.

Lemma in_del_other {V} (k k' : string) (v : V) (d : Py.dict V) :
  k' <> k -> In (k', v) d -> In (k', v) (Py.del k d).
Proof.
  intros Hne Hin. unfold Py.del. apply filter_In. split; [exact Hin|].
  cbn. apply negb_true_iff. apply String.eqb_neq. congruence.
Qed.

Lemma length_del {V} (k : string) (v : V) (d : Py.dict V) :
  NoDup (Py.keys d) -> Py.get k d = Some v ->
  S (List.length (Py.del k d)) = List.length d.
Proof.
  induction d as [|[k1 v1] d IH]; [discriminate|].
  intros Hnd G. inversion Hnd as [|? ? Hnotin Hnd']; subst.
  unfold Py.del in *. cbn in G |- *.
  destruct (String.eqb k k1) eqn:E; cbn.
  - apply String.eqb_eq in E. subst k1.
    pose proof (del_absent k d Hnotin) as Hd. unfold Py.del in Hd.
    now rewrite Hd.
  - f_equal. now apply IH.
Qed.

Lemma all_kept_close (w0 w : World) (tkr : string) (e : Q)
    (t : Py.timestamp) :
  all_kept w0 w -> all_kept w0 (world_of (close_position w tkr e t)).
Proof.
  intros [Hnd [Hin Hlen]]. unfold all_kept, close_position.
  destruct (Py.get tkr (positions (self w))) as [r|] eqn:G; cbn; [|auto].
  destruct (PositionM.close (heap w r) e t); cbn; [|auto].
  split; [now apply keys_del|]. split.
  - intros k x Hx. destruct (Hin k x Hx) as [H|H].
    + destruct (string_dec k tkr) as [->|Hne].
      * right. apply in_or_app. right. left.
        pose proof (in_get _ _ _ Hnd H) as G'. congruence.
      * left. now apply in_del_other.
    + right. apply in_or_app. now left.
  - rewrite length_app. cbn. rewrite <- Hlen.
    rewrite <- (length_del tkr r _ Hnd G). lia.
Qed.

(** X16: exit processing loses no position.  For a portfolio whose open
    tickers are distinct, after [update_portfolio], returned or raised,
    every position that was open is either still open under its ticker or
    in [closed_positions], and the number of open plus closed positions
    is unchanged. *)
Theorem exits_lose_no_position (w : World) (current_prices : Py.dict Q)
    (t : Py.timestamp) :
  NoDup (Py.keys (positions (self w))) ->
  let w' := world_of (update_portfolio R w current_prices t) in
  (forall k r, In (k, r) (positions (self w)) ->
               In (k, r) (positions (self w')) \/
               In r (closed_positions (self w'))) /\
  (List.length (positions (self w')) + List.length (closed_positions (self w'))
   = List.length (positions (self w))
     + List.length (closed_positions (self w)))%nat.
Proof.
  intros Hnd w'.
  assert (H : all_kept w w').
  { subst w'. apply (update_portfolio_preserves R (all_kept w)).
    - intros w1 tkr e t1. apply all_kept_close.
    - intros w1 w2 H1 [Hs _]. unfold all_kept. now rewrite Hs.
    - intros w1 prices t1 H1. exact H1.
    - split; [exact Hnd|]. split; [auto|reflexivity]. }
  destruct H as [_ [H1 H2]]. split; assumption.
Qed.

End WithUpdates.

Section Settling.
Import PortfolioM.
Variable R : ExitRules.

Lemma filed_update_position (w : World) (tkr : string) (p : Q)
    (t : Py.timestamp) :
  filed w -> filed (world_of (update_position R w tkr p t)).
Proof.
  apply (update_position_preserves R filed).
  - intros w0 k e t0. apply filed_close.
  - intros w0 w' H0 Hb. exact (filed_books w0 w' H0 Hb).
Qed.

Lemma update_position_touches_one (w : World) (tkr : string) (p : Q)
    (t : Py.timestamp) (r : ref) :
  Py.get tkr (positions (self w)) <> Some r ->
  heap (world_of (update_position R w tkr p t)) r = heap w r.
Proof.
  intro Hne.
  assert (Hclose : heap (world_of (close_position w tkr p t)) r = heap w r).
  { unfold close_position.
    destruct (Py.get tkr (positions (self w))) as [r0|]; [|reflexivity].
    assert (Hr : r <> r0) by congruence.
    destruct (PositionM.close (heap w r0) p t); cbn;
      now rewrite store_other. }
  unfold update_position.
  destruct (Py.get tkr (positions (self w))) as [r0|]; [|reflexivity].
  assert (Hr : r <> r0) by congruence.
  destruct (Py.truediv p (entry_price (heap w r0))); [|reflexivity].
  destruct (stop_loss_triggered (heap w r0) p); [exact Hclose|].
  destruct (take_profit_triggered (heap w r0) p); [exact Hclose|].
  cbn. unfold trailing_stop.
  destruct (trailing R); [|reflexivity].
  destruct (stop_loss (heap w r0)); [|reflexivity].
  destruct (Py.ltb 0 (quantity (heap w r0)));
    match goal with |- context [if ?b then _ else _] => destruct b end;
    cbn; rewrite ?store_other; auto.
Qed.

Lemma priced_entries_update_position (current_prices : Py.dict Q) (w : World)
    (tkr : string) (p : Q) (t : Py.timestamp) :
  priced_entries_nonzero current_prices w ->
  priced_entries_nonzero current_prices
    (world_of (update_position R w tkr p t)).
Proof.
  intros H k r G Hm.
  destruct (update_position_frame R w tkr p t) as [_ Hsub].
  destruct (update_position_object R w tkr p t r) as [[_ [_ [He _]]] _].
  cbn in He. rewrite He. exact (H k r (Hsub k r G) Hm).
Qed.

Lemma update_position_settles (current_prices : Py.dict Q) (w : World)
    (tkr : string) (price : Q) (t : Py.timestamp) :
  0 < percentage R -> 0 < price ->
  Py.get tkr current_prices = Some price ->
  (forall r0, Py.get tkr (positions (self w)) = Some r0 ->
              ~ entry_price (heap w r0) == 0) ->
  settled current_prices (world_of (update_position R w tkr price t)) tkr.
Proof.
  intros Hpct Hp GP Hentry r price' G1 GP'.
  assert (price' = price) by congruence. subst price'.
  destruct (Py.get tkr (positions (self w))) as [r0|] eqn:G.
  - pose proof (Hentry r0 eq_refl) as Hn.
    rewrite (update_position_held R w tkr r0 price t G Hn) in G1 |- *.
    destruct (close_position_held w tkr r0 price t G Hn)
      as [wc [Hc [Hgone _]]].
    destruct (stop_loss_triggered (heap w r0) price) eqn:E1;
      [rewrite Hc in G1; cbn in G1; congruence|].
    destruct (take_profit_triggered (heap w r0) price) eqn:E2;
      [rewrite Hc in G1; cbn in G1; congruence|].
    cbn in G1 |- *. rewrite trailing_stop_ledger, G in G1.
    injection G1 as <-.
    destruct (trailing_stop_settles R w tkr r0 price Hpct Hp E1 E2)
      as [E1' [E2' _]].
    split; assumption.
  - unfold update_position in G1. rewrite G in G1. cbn in G1. congruence.
Qed.

Lemma update_position_keeps_settled (current_prices : Py.dict Q) (w : World)
    (tkr k : string) (p : Q) (t : Py.timestamp) :
  filed w -> k <> tkr ->
  settled current_prices w k ->
  settled current_prices (world_of (update_position R w tkr p t)) k.
Proof.
  intros Hf Hne Hs r price G GP.
  rewrite (update_position_other_keys R w tkr k p t Hne) in G.
  rewrite update_position_touches_one; [now apply Hs|].
  intro Htkr. apply Hne.
  rewrite <- (filed_ticker w Hf k r (get_some_in _ _ _ G)).
  exact (filed_ticker w Hf tkr r (get_some_in _ _ _ Htkr)).
Qed.

Lemma update_each_settles (current_prices : Py.dict Q) (t : Py.timestamp) :
  0 < percentage R ->
  (forall k price, Py.get k current_prices = Some price -> 0 < price) ->
  forall (tickers done : list string) (w : World),
    filed w ->
    priced_entries_nonzero current_prices w ->
    (forall k, In k done -> settled current_prices w k) ->
    exists w',
      update_each R tickers current_prices t w = Returned w' /\
      (forall k, In k (done ++ tickers) -> settled current_prices w' k) /\
      (forall k r, Py.get k (positions (self w')) = Some r ->
                   Py.get k (positions (self w)) = Some r).
Proof.
  intros Hpct Hpos.
  induction tickers as [|tkr rest IH]; intros done w Hf Hent Hdone; cbn.
  - exists w. rewrite app_nil_r. auto.
  - destruct (Py.get tkr current_prices) as [price|] eqn:GP.
    + assert (Hm : Py.mem tkr current_prices = true)
        by (unfold Py.mem; now rewrite GP).
      assert (Hentry : forall r0, Py.get tkr (positions (self w)) = Some r0 ->
                                  ~ entry_price (heap w r0) == 0)
        by (intros r0 G; exact (Hent tkr r0 G Hm)).
      destruct (update_position_returns R w tkr price t Hentry) as [w1 Hw1].
      pose proof (filed_update_position w tkr price t Hf) as Hf1.
      pose proof (priced_entries_update_position current_prices w tkr price t
                    Hent) as Hent1.
      pose proof (update_position_settles current_prices w tkr price t
                    Hpct (Hpos tkr price GP) GP Hentry) as Hset.
      pose proof (update_position_frame R w tkr price t) as [_ Hsub].
      assert (Hkeep : forall k, k <> tkr -> settled current_prices w k ->
                settled current_prices
                  (world_of (update_position R w tkr price t)) k)
        by (intros k Hk; now apply update_position_keeps_settled).
      rewrite Hw1 in *. cbn in Hf1, Hent1, Hset, Hsub, Hkeep.
      destruct (IH (done ++ [tkr]) w1 Hf1 Hent1) as [w' [Hw' [Hall Hsub']]].
      { intros k Hk. apply in_app_or in Hk.
        destruct (string_dec k tkr) as [->|Hne]; [exact Hset|].
        destruct Hk as [Hk|[<-|[]]]; [|congruence].
        apply Hkeep; auto. }
      exists w'. split; [exact Hw'|]. split.
      * intros k Hk. apply Hall. rewrite <- app_assoc. exact Hk.
      * intros k r G. apply Hsub. now apply Hsub'.
    + destruct (IH (done ++ [tkr]) w Hf Hent) as [w' [Hw' [Hall Hsub']]].
      { intros k Hk. apply in_app_or in Hk.
        destruct Hk as [Hk|[<-|[]]]; [auto|].
        intros r price _ GP'. congruence. }
      exists w'. split; [exact Hw'|]. split; [|exact Hsub'].
      intros k Hk. apply Hall. rewrite <- app_assoc. exact Hk.
Qed.

(** X17: [update_portfolio] leaves no exit pending.  On filed books, with a
    positive trailing percentage, positive snapshot prices and nonzero
    entry prices, the call returns, and afterwards no open position that
    the snapshot prices has its stop or its target hit at that price:
    each such position was either closed or is clear of both. *)
Theorem no_exit_left_pending (w : World) (current_prices : Py.dict Q)
    (t : Py.timestamp) :
  filed w ->
  0 < percentage R ->
  (forall k price, Py.get k current_prices = Some price -> 0 < price) ->
  priced_entries_nonzero current_prices w ->
  exists w',
    update_portfolio R w current_prices t = Returned w' /\
    forall k r price,
      Py.get k (positions (self w')) = Some r ->
      Py.get k current_prices = Some price ->
      stop_loss_triggered (heap w' r) price = false /\
      take_profit_triggered (heap w' r) price = false.
Proof.
  intros Hf Hpct Hpos Hent.
  destruct (update_each_settles current_prices t Hpct Hpos
              (Py.keys (positions (self w))) [] w Hf Hent)
    as [w1 [Hw1 [Hall Hsub]]]; [intros k []|].
  rewrite update_portfolio_shape, Hw1.
  exists (with_sample w1 current_prices t). split; [reflexivity|].
  cbn. intros k r price G GP.
  pose proof (get_some_in _ _ _ (Hsub k r G)) as Hin.
  apply (Hall k); [|exact G|exact GP].
  cbn. unfold Py.keys. apply in_map_iff. now exists (k, r).
Qed.

End Settling.

Section Raising.
Import PortfolioM.
Variable R : ExitRules.

Lemma update_position_raised (w w' : World) (tkr : string) (p : Q)
    (t : Py.timestamp) (e : Py.exn) :
  update_position R w tkr p t = Raised e w' ->
  w' = w /\
  exists r, Py.get tkr (positions (self w)) = Some r /\
            entry_price (heap w r) == 0.
Proof.
  intro H.
  destruct (Py.get tkr (positions (self w))) as [r|] eqn:G.
  - destruct (Qeq_dec (entry_price (heap w r)) 0) as [H0|Hn].
    + unfold update_position in H. rewrite G in H.
      rewrite (truediv_zero p _ H0) in H. injection H as _ <-.
      split; [reflexivity|]. now exists r.
    + exfalso.
      destruct (update_position_returns R w tkr p t) as [w1 Hw1];
        [|congruence].
      intros r0 G0. rewrite G in G0. now injection G0 as <-.
  - unfold update_position in H. rewrite G in H. discriminate.
Qed.

Lemma update_each_raised (current_prices : Py.dict Q) (t : Py.timestamp)
    (tickers : list string) (w w' : World) (e : Py.exn) :
  update_each R tickers current_prices t w = Raised e w' ->
  exists k r price,
    In k tickers /\
    Py.get k current_prices = Some price /\
    Py.get k (positions (self w')) = Some r /\
    entry_price (heap w' r) == 0.
Proof.
  revert w. induction tickers as [|tkr rest IH]; intros w H; cbn in H;
    [discriminate|].
  destruct (Py.get tkr current_prices) as [price|] eqn:GP.
  - destruct (update_position R w tkr price t) as [w1|ex w1] eqn:EU.
    + destruct (IH w1 H) as [k [r [pr [Hin Hrest]]]].
      exists k, r, pr. split; [now right | exact Hrest].
    + injection H as _ <-.
      destruct (update_position_raised w w1 tkr price t ex EU)
        as [-> [r [G H0]]].
      exists tkr, r, price. split; [now left | auto].
  - destruct (IH w H) as [k [r [pr [Hin Hrest]]]].
    exists k, r, pr. split; [now right | exact Hrest].
Qed.

Lemma update_each_equity (current_prices : Py.dict Q) (t : Py.timestamp)
    (tickers : list string) (w : World) :
  equity_curve
    (self (world_of (update_each R tickers current_prices t w)))
  = equity_curve (self w).
Proof.
  revert w. induction tickers as [|tkr rest IH]; intro w; cbn; [reflexivity|].
  destruct (Py.get tkr current_prices) as [price|]; [|apply IH].
  pose proof (update_position_frame R w tkr price t) as [Heq _].
  destruct (update_position R w tkr price t) as [w1|ex w1]; cbn in *.
  - now rewrite IH.
  - exact Heq.
Qed.

(** X18: [update_portfolio] raises only on a zero entry price: when it
    raises, some open position that the snapshot prices has a zero entry
    price and is still open, and no equity sample was appended. *)
Theorem update_portfolio_raises_on_zero_entry (w w' : World)
    (current_prices : Py.dict Q) (t : Py.timestamp) (e : Py.exn) :
  update_portfolio R w current_prices t = Raised e w' ->
  e = Py.ZeroDivisionError /\
  equity_curve (self w') = equity_curve (self w) /\
  exists k r price,
    Py.get k current_prices = Some price /\
    Py.get k (positions (self w')) = Some r /\
    entry_price (heap w' r) == 0.
Proof.
  intro H. rewrite update_portfolio_shape in H.
  pose proof (update_each_equity current_prices t
                (Py.keys (positions (self w))) w) as Heq.
  destruct (update_each R (Py.keys (positions (self w))) current_prices t w)
    as [w1|ex w1] eqn:EU; [discriminate|].
  injection H as <- <-. cbn in Heq.
  destruct (update_each_raised current_prices t _ w w1 ex EU)
    as [k [r [price [_ Hrest]]]].
  split; [now destruct ex|]. split; [exact Heq|].
  exists k, r, price. exact Hrest.
Qed.

End Raising.

(** ** The properties on the second desk *)

Lemma entry_valuation_is_cash_plus_cost_witness :
  NoDup (Py.keys (positions (self Desk.w3))) /\
  PortfolioM.get_portfolio_value Desk.w3 (entry_prices Desk.w3)
    == cash (self Desk.w3) + open_cost Desk.w3 /\
  PortfolioM.get_position_value Desk.w3 (entry_prices Desk.w3)
    == open_cost Desk.w3.
Proof.
  assert (H : NoDup (Py.keys (positions (self Desk.w3)))).
  { cbn. repeat constructor; cbn; intuition discriminate. }
  split; [exact H|].
  exact (entry_valuation_is_cash_plus_cost Desk.w3 H).
Defined.



Lemma exits_lose_no_position_witness :
  NoDup (Py.keys (positions (self Desk.w3))) /\
  (List.length
     (positions (self (world_of (PortfolioM.update_portfolio Desk.rules
                                   Desk.w3 Desk.snapshot 2%Z))))
   + List.length
       (closed_positions
          (self (world_of (PortfolioM.update_portfolio Desk.rules
                             Desk.w3 Desk.snapshot 2%Z))))
   = 3)%nat.
Proof.
  assert (H : NoDup (Py.keys (positions (self Desk.w3)))).
  { cbn. repeat constructor; cbn; intuition discriminate. }
  split; [exact H|].
  exact (proj2 (exits_lose_no_position Desk.rules Desk.w3 Desk.snapshot 2%Z
                  H)).
Defined.

Lemma no_exit_left_pending_witness :
  filed Desk.w3 /\
  0 < percentage Desk.rules /\
  (forall k price, Py.get k Desk.snapshot = Some price -> 0 < price) /\
  priced_entries_nonzero Desk.snapshot Desk.w3 /\
  exists w',
    PortfolioM.update_portfolio Desk.rules Desk.w3 Desk.snapshot 2%Z
      = Returned w' /\
    forall k r price,
      Py.get k (positions (self w')) = Some r ->
      Py.get k Desk.snapshot = Some price ->
      PortfolioM.stop_loss_triggered (heap w' r) price = false /\
      PortfolioM.take_profit_triggered (heap w' r) price = false.
Proof.
  assert (Hf : filed Desk.w3)
    by exact (filed_reachable Desk.rules Desk.objects 50000
                [CallAdd 0%nat; CallAdd 1%nat; CallAdd 2%nat]).
  assert (Hpct : 0 < percentage Desk.rules) by reflexivity.
  assert (Hpos : forall k price,
             Py.get k Desk.snapshot = Some price -> 0 < price).
  { intros k price G. cbn in G.
    destruct (String.eqb k "NVDA");
      [|destruct (String.eqb k "TSLA"); [|discriminate]];
      injection G as <-; reflexivity. }
  assert (Hent : priced_entries_nonzero Desk.snapshot Desk.w3).
  { intros k r G _. cbn in G.
    destruct (String.eqb k "NVDA");
      [|destruct (String.eqb k "TSLA");
        [|destruct (String.eqb k "SPY"); [|discriminate]]];
      injection G as <-; vm_compute; discriminate. }
  split; [exact Hf|]. split; [exact Hpct|]. split; [exact Hpos|].
  split; [exact Hent|].
  exact (no_exit_left_pending Desk.rules Desk.w3 Desk.snapshot 2%Z
           Hf Hpct Hpos Hent).
Defined.

Lemma update_portfolio_raises_on_zero_entry_witness :
  PortfolioM.update_portfolio Desk.rules Desk.w_gift
    [("GIFT"%string, 10)] 1%Z
    = Raised Py.ZeroDivisionError Desk.w_gift /\
  equity_curve (self Desk.w_gift) = [] /\
  exists k r price,
    Py.get k [("GIFT"%string, 10)] = Some price /\
    Py.get k (positions (self Desk.w_gift)) = Some r /\
    entry_price (heap Desk.w_gift r) == 0.
Proof.
  assert (H : PortfolioM.update_portfolio Desk.rules Desk.w_gift
                [("GIFT"%string, 10)] 1%Z
              = Raised Py.ZeroDivisionError Desk.w_gift) by reflexivity.
  split; [exact H|].
  exact (proj2 (update_portfolio_raises_on_zero_entry Desk.rules _ _ _ _ _ H)).
Defined.
